(** * Q-and-A-Chatbot/app.py: session state machine and completion client

    A shallow embedding of the Streamlit script [app.py].  One execution of
    the script (a "run") reads the widget state of the browser, mutates
    [st.session_state] and draws elements; [st.rerun()] and [st.stop()]
    abort the run.  The embedding keeps the script's own names. *)

From Stdlib Require Import PrimFloat.
From Stdlib Require Import String Ascii List ZArith Bool Lia.
From Stdlib.Strings Require Byte.
From Stdlib Require NArith.
Import ListNotations.
Open Scope string_scope.

Abbreviation float := PrimFloat.float.

(** ** Python values *)

Module Py.

(** Truthiness of a [str]: the empty string is falsy. *)
Definition truthy (s : string) : bool :=
  match s with
  | EmptyString => false
  | String _ _ => true
  end.

(** Truthiness of a value that is a [str] or [None]. *)
Definition truthy_opt (v : option string) : bool :=
  match v with
  | None => false
  | Some s => truthy s
  end.

(** [needle in hay] on strings. *)
Fixpoint str_in (needle hay : string) : bool :=
  if String.prefix needle hay then true
  else match hay with
       | EmptyString => false
       | String _ rest => str_in needle rest
       end.

(** [x in l] on a list of strings. *)
Fixpoint list_in (x : string) (l : list string) : bool :=
  match l with
  | [] => false
  | y :: l' => if String.eqb y x then true else list_in x l'
  end.

(** [l.index(x)]: the first position of [x]; [None] stands for the
    [ValueError] Python raises when [x] is absent. *)
Fixpoint list_index (x : string) (l : list string) : option nat :=
  match l with
  | [] => None
  | y :: l' =>
      if String.eqb y x then Some 0%nat
      else match list_index x l' with
           | Some n => Some (S n)
           | None => None
           end
  end.

(** [float(x)] on a float and [int(n)] on an int return their argument. *)
Definition float_ (x : float) : float := x.
Definition int_ (n : Z) : Z := n.

(** An exception object: its class and what [str(e)] yields. *)
Record Exception := { exc_class : string; exc_str : string }.

(** The result of a call that may raise. *)
Inductive Outcome (A : Type) : Type :=
| Return (a : A)
| Raise (e : Exception).
Arguments Return {A} a.
Arguments Raise {A} e.

End Py.
Import Py.

(** ** Constants of the module *)

Definition KEY_MISSING_TEXT : string :=
  "GROQ_API_KEY not found. Add it in Streamlit Cloud → Settings → Secrets.".

Definition GROQ_BASE_URL : string := "https://api.groq.com/openai/v1".

Definition MODEL_OPTIONS : list string :=
  [ "llama-3.1-8b-instant";
    "llama-3.3-70b-versatile";
    "groq/compound-mini";
    "groq/compound" ].

Definition SYSTEM_TEXT : string :=
  "You are a helpful assistant. Answer clearly, politely, and accurately.".

Definition RETIRED_HINT : string :=
  "That model was retired by Groq. Pick a different model from the dropdown.".

(** [prompt]: the two-message chat template, with [{question}] filled in. *)
Definition prompt (question : string) : list (string * string) :=
  [ ("system", SYSTEM_TEXT);
    ("user", "Question: " ++ question) ].

(** ** Session state *)

(** [st.session_state.settings]: a dict with the three fixed keys. *)
Record Settings := {
  model : string;
  temperature : float;
  max_tokens : Z
}.

(** An entry of [st.session_state.messages]. *)
Record Message := { role : string; content : string }.

(** [st.session_state] once its three keys exist. *)
Record SessionState := {
  page : string;
  settings : Settings;
  messages : list Message
}.

(** [st.session_state] as the script finds it: a key may be missing. *)
Record Store := {
  st_page : option string;
  st_settings : option Settings;
  st_messages : option (list Message)
}.

Definition empty_store : Store :=
  {| st_page := None; st_settings := None; st_messages := None |}.

Definition default_settings : Settings :=
  {| model := "llama-3.1-8b-instant";
     temperature := 0x1.6666666666666p-1%float;  (* the double Python reads 0.7 as *)
     max_tokens := 512 |}.

(** The three [if key not in st.session_state] blocks. *)
Definition init_session (st : Store) : SessionState :=
  {| page := match st_page st with Some p => p | None => "landing" end;
     settings := match st_settings st with
                 | Some c => c
                 | None => default_settings
                 end;
     messages := match st_messages st with Some m => m | None => [] end |}.

Definition store_of (s : SessionState) : Store :=
  {| st_page := Some (page s);
     st_settings := Some (settings s);
     st_messages := Some (messages s) |}.

(** ** The completion request *)

(** The arguments [generate_response] gives to [ChatOpenAI]. *)
Record ChatOpenAI := {
  llm_api_key : string;
  llm_base_url : string;
  llm_model : string;
  llm_temperature : float;
  llm_max_tokens : Z
}.

(** One invocation of the chain [prompt | llm | parser]: the client and the
    formatted messages it sends. *)
Record Request := {
  req_llm : ChatOpenAI;
  req_messages : list (string * string)
}.

(** ** Widgets *)

(** What is drawn on the page.  Static markup is left out; [Background p]
    stands for all that [set_page_background(p)] draws: the style block of
    the page, after a warning when its image file is missing.
    [ChatBubble who body] is the container [st.chat_message(who)] holding
    [st.markdown(body)], and [ChatErrorBox who text] the same container
    holding [st.error(text)] instead. *)
Inductive UI : Type :=
| Background (page_name : string)
| ChatBubble (who body : string)
| ChatErrorBox (who text : string)
| ErrorBox (text : string)
| SuccessBox (text : string).

(** The widget state a run reads.  A selectbox or slider the user has not
    touched holds [None] and yields its default; a button is [true] in the
    run its click triggers; [chat_input] is the submitted text, if any. *)
Record Inputs := {
  (* landing_page *)
  btn_get_started : bool;
  btn_landing_setup : bool;
  btn_landing_chat : bool;
  (* setup_page *)
  sel_model : option nat;
  sld_temperature : option float;
  sld_max_tokens : option Z;
  btn_back : bool;
  btn_save : bool;
  btn_continue : bool;
  (* chat_page *)
  sb_model : option nat;
  sb_temperature : option float;
  sb_max_tokens : option Z;
  btn_clear : bool;
  btn_home : bool;
  btn_chat_setup : bool;
  chat_input : option string
}.

Definition no_inputs : Inputs :=
  {| btn_get_started := false; btn_landing_setup := false;
     btn_landing_chat := false;
     sel_model := None; sld_temperature := None; sld_max_tokens := None;
     btn_back := false; btn_save := false; btn_continue := false;
     sb_model := None; sb_temperature := None; sb_max_tokens := None;
     btn_clear := false; btn_home := false; btn_chat_setup := false;
     chat_input := None |}.

(** [st.selectbox(label, options, index)]: the option the user picked, else
    the one at [index].  The front end only offers the listed options, so a
    pick outside them is treated as no pick. *)
Definition selectbox (options : list string) (index : nat)
    (pick : option nat) : string :=
  match pick with
  | Some n =>
      match nth_error options n with
      | Some o => o
      | None => nth index options ""
      end
  | None => nth index options ""
  end.

Definition in_range (lo hi v : float) : bool :=
  PrimFloat.leb lo v && PrimFloat.leb v hi.

(** [st.slider(label, min, max, value, step)] on floats and on ints: the
    value the user set, which the front end keeps within the bounds, else
    [value]. *)
Definition slider (lo hi value : float) (pick : option float) : float :=
  match pick with
  | Some v => if in_range lo hi v then v else value
  | None => value
  end.

Definition slider_int (lo hi value : Z) (pick : option Z) : Z :=
  match pick with
  | Some v => if ((lo <=? v) && (v <=? hi))%Z then v else value
  | None => value
  end.

(** The [index=] expression of both model selectors:
    [MODEL_OPTIONS.index(m) if m in MODEL_OPTIONS else 0]. *)
Definition model_index (m : string) : nat :=
  if list_in m MODEL_OPTIONS then
    match list_index m MODEL_OPTIONS with
    | Some n => n
    | None => 0%nat
    end
  else 0%nat.

(** ** Script runs *)

(** How a run is cut short: [st.rerun()] or [st.stop()]. *)
Inductive Signal : Type := RerunRequested | StopRequested.

(** What a run has built up so far: the session state, the elements drawn,
    and the requests sent to the provider. *)
Record World := {
  session : SessionState;
  screen : list UI;
  sent : list Request
}.

(** A piece of the script: it yields a value or is cut short by a signal. *)
Definition Script (A : Type) : Type := World -> (A + Signal) * World.

Definition ret {A : Type} (a : A) : Script A := fun w => (inl a, w).

Definition bind {A B : Type} (m : Script A) (k : A -> Script B) : Script B :=
  fun w =>
    match m w with
    | (inl a, w') => k a w'
    | (inr sg, w') => (inr sg, w')
    end.

Declare Scope script_scope.
Delimit Scope script_scope with script.
Bind Scope script_scope with Script.
Notation "x <- m ;; k" := (bind m (fun x => k))
  (at level 61, m at next level, right associativity) : script_scope.
Notation "m ;; k" := (bind m (fun _ => k))
  (at level 61, right associativity) : script_scope.
Open Scope script_scope.

Definition signal {A : Type} (sg : Signal) : Script A := fun w => (inr sg, w).

(** [st.rerun()]. *)
Definition st_rerun : Script unit := signal RerunRequested.

Definition get_state : Script SessionState := fun w => (inl (session w), w).

Definition put_state (s : SessionState) : Script unit :=
  fun w => (inl tt, {| session := s; screen := screen w; sent := sent w |}).

(** Draw one element below those already on the page. *)
Definition draw (u : UI) : Script unit :=
  fun w =>
    (inl tt,
     {| session := session w; screen := screen w ++ [u]; sent := sent w |}).

(** [if b: body]. *)
Definition when (b : bool) (body : Script unit) : Script unit :=
  if b then body else ret tt.

(** Assignments to [st.session_state]. *)
Definition set_page (p : string) : Script unit :=
  s <- get_state ;;
  put_state {| page := p; settings := settings s; messages := messages s |}.

Definition set_settings (c : Settings) : Script unit :=
  s <- get_state ;;
  put_state {| page := page s; settings := c; messages := messages s |}.

Definition set_messages (m : list Message) : Script unit :=
  s <- get_state ;;
  put_state {| page := page s; settings := settings s; messages := m |}.

(** [st.session_state.messages.append(d)]. *)
Definition messages_append (d : Message) : Script unit :=
  s <- get_state ;;
  set_messages (messages s ++ [d]).

(** [st.session_state.settings.update({...})] with the three keys. *)
Definition settings_update (m : string) (t : float) (k : Z) : Script unit :=
  set_settings {| model := m; temperature := t; max_tokens := k |}.

(** [set_page_background(page_name)]. *)
Definition set_page_background (page_name : string) : Script unit :=
  draw (Background page_name).

(** [go(page_name)]. *)
Definition go (page_name : string) : Script unit :=
  set_page page_name ;;
  st_rerun.

(** The history loop of [chat_page]. *)
Fixpoint show_history (l : list Message) : Script unit :=
  match l with
  | [] => ret tt
  | msg :: rest =>
      draw (ChatBubble (role msg) (content msg)) ;;
      show_history rest
  end.

Section Pages.

(** The module-level [groq_api_key], and the provider behind
    [chain.invoke]: it answers a request with text or raises. *)
Variable groq_api_key : string.
Variable invoke : Request -> Outcome string.

(** [generate_response(question)]: its result is the text returned or the
    exception that escapes it. *)
Definition generate_response (question : string) : Script (Outcome string) :=
  s <- get_state ;;
  let cfg := settings s in
  let llm :=
    {| llm_api_key := groq_api_key;
       llm_base_url := GROQ_BASE_URL;
       llm_model := model cfg;
       llm_temperature := temperature cfg;
       llm_max_tokens := max_tokens cfg |} in
  let chain := {| req_llm := llm; req_messages := prompt question |} in
  fun w =>
    (inl (invoke chain),
     {| session := session w; screen := screen w;
        sent := sent w ++ [chain] |}).

Definition landing_page (i : Inputs) : Script unit :=
  set_page_background "landing" ;;
  when (btn_get_started i) (go "setup") ;;
  when (btn_landing_setup i) (go "setup") ;;
  when (btn_landing_chat i) (go "chat").

Definition setup_page (i : Inputs) : Script unit :=
  set_page_background "setup" ;;
  s <- get_state ;;
  let model_ :=
    selectbox MODEL_OPTIONS (model_index (model (settings s)))
      (sel_model i) in
  let temperature_ :=
    slider 0 1 (float_ (temperature (settings s))) (sld_temperature i) in
  let max_tokens_ :=
    slider_int 64 2048 (int_ (max_tokens (settings s)))
      (sld_max_tokens i) in
  when (btn_back i) (go "landing") ;;
  when (btn_save i)
    (settings_update model_ (float_ temperature_) (int_ max_tokens_) ;;
     draw (SuccessBox "Saved ✅")) ;;
  when (btn_continue i)
    (settings_update model_ (float_ temperature_) (int_ max_tokens_) ;;
     go "chat").

Definition chat_page (i : Inputs) : Script unit :=
  set_page_background "chat" ;;
  s <- get_state ;;
  set_settings
    {| model :=
         selectbox MODEL_OPTIONS (model_index (model (settings s)))
           (sb_model i);
       temperature := temperature (settings s);
       max_tokens := max_tokens (settings s) |} ;;
  s <- get_state ;;
  set_settings
    {| model := model (settings s);
       temperature :=
         slider 0 1 (float_ (temperature (settings s))) (sb_temperature i);
       max_tokens := max_tokens (settings s) |} ;;
  s <- get_state ;;
  set_settings
    {| model := model (settings s);
       temperature := temperature (settings s);
       max_tokens :=
         slider_int 64 2048 (int_ (max_tokens (settings s)))
           (sb_max_tokens i) |} ;;
  when (btn_clear i) (set_messages [] ;; st_rerun) ;;
  when (btn_home i) (go "landing") ;;
  when (btn_chat_setup i) (go "setup") ;;
  s <- get_state ;;
  show_history (messages s) ;;
  match chat_input i with
  | Some user_text =>
      when (truthy user_text)
        (messages_append {| role := "user"; content := user_text |} ;;
         draw (ChatBubble "user" user_text) ;;
         r <- generate_response user_text ;;
         match r with
         | Return answer =>
             draw (ChatBubble "assistant" answer) ;;
             messages_append {| role := "assistant"; content := answer |}
         | Raise e =>
             let err := exc_str e in
             if str_in "model_decommissioned" err
                || str_in "decommissioned" err
             then draw (ChatErrorBox "assistant" RETIRED_HINT)
             else draw (ChatErrorBox "assistant" ("Error: " ++ exc_str e))
         end)
  | None => ret tt
  end.

(** The router at the end of the script. *)
Definition router (i : Inputs) : Script unit :=
  s <- get_state ;;
  if String.eqb (page s) "landing" then landing_page i
  else if String.eqb (page s) "setup" then setup_page i
  else chat_page i.

End Pages.

(** ** The whole script *)

(** What one run leaves behind: the session state, what the script drew,
    the requests it sent, the signal that cut it short, and the exception
    that ended it when one escaped the script (Streamlit then reports it in
    place of the page). *)
Record RunResult := {
  store_after : Store;
  shown : list UI;
  requests : list Request;
  stopped_by : option Signal;
  uncaught : option Exception
}.

(** [st.secrets] as the process finds it: no secrets file at all, or a file
    with or without the key.  Without a file every access to [st.secrets]
    raises, with a message that lists the paths Streamlit looked at. *)
Inductive Secrets : Type :=
| NoSecretsFile (message : string)
| SecretsFile (key : option string).

(** [st.secrets.get("GROQ_API_KEY", os.getenv("GROQ_API_KEY"))]: the value
    in the secrets file, else the one of the environment; without a secrets
    file the call raises, whatever the environment holds. *)
Definition groq_api_key (secrets : Secrets) (env : option string)
    : Outcome (option string) :=
  match secrets with
  | NoSecretsFile message =>
      Raise {| exc_class := "StreamlitSecretNotFoundError";
               exc_str := message |}
  | SecretsFile (Some k) => Return (Some k)
  | SecretsFile None => Return env
  end.

(** The run stopped by [st.stop()] in the key check: one error box, and
    [st.session_state] as it was. *)
Definition halted (st : Store) : RunResult :=
  {| store_after := st;
     shown := [ErrorBox KEY_MISSING_TEXT];
     requests := [];
     stopped_by := Some StopRequested;
     uncaught := None |}.

(** The run ended by an exception at the first statement after the page
    configuration: the script has drawn nothing and written nothing. *)
Definition crashed (e : Exception) (st : Store) : RunResult :=
  {| store_after := st;
     shown := [];
     requests := [];
     stopped_by := None;
     uncaught := Some e |}.

Definition fresh (s : SessionState) : World :=
  {| session := s; screen := []; sent := [] |}.

Definition result_of (r : (unit + Signal) * World) : RunResult :=
  {| store_after := store_of (session (snd r));
     shown := screen (snd r);
     requests := sent (snd r);
     stopped_by := match fst r with
                   | inl _ => None
                   | inr sg => Some sg
                   end;
     uncaught := None |}.

Section Program.

Variable secrets : Secrets.
Variable env : option string.
Variable invoke : Request -> Outcome string.

(** One execution of [app.py], top to bottom. *)
Definition script (i : Inputs) (st : Store) : RunResult :=
  match groq_api_key secrets env with
  | Raise e => crashed e st
  | Return (Some key) =>
      if truthy key
      then result_of (router key invoke i (fresh (init_session st)))
      else halted st
  | Return None => halted st
  end.

(** One user interaction: the run it triggers and, when that run calls
    [st.rerun()], the run that follows at once.  The follow-up run sees no
    click, no submission, and widgets at their defaults. *)
Definition interact (i : Inputs) (st : Store) : RunResult :=
  let r := script i st in
  match stopped_by r with
  | Some RerunRequested =>
      let r' := script no_inputs (store_after r) in
      {| store_after := store_after r';
         shown := shown r';
         requests := requests r ++ requests r';
         stopped_by := stopped_by r';
         uncaught := uncaught r' |}
  | _ => r
  end.

(** A session: the interactions of one connection, in order. *)
Fixpoint run_session (l : list Inputs) (st : Store) : Store :=
  match l with
  | [] => st
  | i :: rest => run_session rest (store_after (interact i st))
  end.

End Program.

(** ** Vocabulary for the statements *)

(** The pages whose background block is on the screen, in order. *)
Fixpoint pages_drawn (l : list UI) : list string :=
  match l with
  | [] => []
  | Background p :: rest => p :: pages_drawn rest
  | _ :: rest => pages_drawn rest
  end.

(** The error boxes on the screen, in order, inside a chat message or not. *)
Fixpoint errors_drawn (l : list UI) : list string :=
  match l with
  | [] => []
  | ErrorBox t :: rest => t :: errors_drawn rest
  | ChatErrorBox _ t :: rest => t :: errors_drawn rest
  | _ :: rest => errors_drawn rest
  end.

Definition bubble (m : Message) : UI := ChatBubble (role m) (content m).

(** The settings [chat_page] holds once its three sidebar assignments are
    done. *)
Definition sidebar_settings (i : Inputs) (c : Settings) : Settings :=
  {| model := selectbox MODEL_OPTIONS (model_index (model c)) (sb_model i);
     temperature := slider 0 1 (float_ (temperature c)) (sb_temperature i);
     max_tokens :=
       slider_int 64 2048 (int_ (max_tokens c)) (sb_max_tokens i) |}.

(** The values [setup_page] passes to [settings.update]. *)
Definition setup_values (i : Inputs) (c : Settings) : Settings :=
  {| model := selectbox MODEL_OPTIONS (model_index (model c)) (sel_model i);
     temperature :=
       float_ (slider 0 1 (float_ (temperature c)) (sld_temperature i));
     max_tokens :=
       int_ (slider_int 64 2048 (int_ (max_tokens c)) (sld_max_tokens i)) |}.

(** The session a run without clicks or edits leaves: only the chat page
    writes, and it writes the values its sidebar shows. *)
Definition settled (s : SessionState) : SessionState :=
  if String.eqb (page s) "landing" then s
  else if String.eqb (page s) "setup" then s
  else {| page := page s;
          settings := sidebar_settings no_inputs (settings s);
          messages := messages s |}.

(** Settings whose temperature and token bound lie within the bounds the
    two sliders are created with.  Streamlit refuses to draw a slider whose
    [value] lies outside its bounds; the sessions of this script never ask
    for one (see [run_session_bounds]). *)
Definition in_bounds (c : Settings) : Prop :=
  in_range 0 1 (temperature c) = true /\
  (64 <= max_tokens c <= 2048)%Z.

(** The navigation buttons, and the widget state of a run in which exactly
    that button was clicked; the selectors and sliders are as in [w]. *)
Inductive Nav : Type :=
| GetStarted | LandingSetup | LandingChat
| Back | Continue
| Home | ChatSetup.

Definition press (a : Nav) (w : Inputs) : Inputs :=
  {| btn_get_started := match a with GetStarted => true | _ => false end;
     btn_landing_setup := match a with LandingSetup => true | _ => false end;
     btn_landing_chat := match a with LandingChat => true | _ => false end;
     sel_model := sel_model w;
     sld_temperature := sld_temperature w;
     sld_max_tokens := sld_max_tokens w;
     btn_back := match a with Back => true | _ => false end;
     btn_save := false;
     btn_continue := match a with Continue => true | _ => false end;
     sb_model := sb_model w;
     sb_temperature := sb_temperature w;
     sb_max_tokens := sb_max_tokens w;
     btn_clear := false;
     btn_home := match a with Home => true | _ => false end;
     btn_chat_setup := match a with ChatSetup => true | _ => false end;
     chat_input := None |}.

(** The transition table of the specification (section 4.1): the target of
    a navigation action on a page, if the page offers it. *)
Definition spec_transition (p : string) (a : Nav) : option string :=
  if String.eqb p "landing" then
    match a with
    | GetStarted | LandingSetup => Some "setup"
    | LandingChat => Some "chat"
    | _ => None
    end
  else if String.eqb p "setup" then
    match a with
    | Back => Some "landing"
    | Continue => Some "chat"
    | _ => None
    end
  else if String.eqb p "chat" then
    match a with
    | Home => Some "landing"
    | ChatSetup => Some "setup"
    | _ => None
    end
  else None.

(** The target of the last valid transition of a sequence, starting on [p]. *)
Fixpoint spec_navigate (p : string) (l : list Nav) : string :=
  match l with
  | [] => p
  | a :: rest =>
      match spec_transition p a with
      | Some q => spec_navigate q rest
      | None => spec_navigate p rest
      end
  end.

Definition valid_page (p : string) : Prop :=
  p = "landing" \/ p = "setup" \/ p = "chat".

(** A run on the chat page in which the user submitted [q]: no sidebar
    button was clicked and the chat input holds the non-empty text [q]. *)
Definition submits (i : Inputs) (q : string) : Prop :=
  btn_clear i = false /\ btn_home i = false /\ btn_chat_setup i = false /\
  chat_input i = Some q /\ truthy q = true.

(** The request [generate_response] builds from the settings [cfg]. *)
Definition request_for (key : string) (cfg : Settings) (question : string)
    : Request :=
  {| req_llm :=
       {| llm_api_key := key;
          llm_base_url := GROQ_BASE_URL;
          llm_model := model cfg;
          llm_temperature := temperature cfg;
          llm_max_tokens := max_tokens cfg |};
     req_messages :=
       [ ("system", SYSTEM_TEXT); ("user", "Question: " ++ question) ] |}.

(** The provider's way of saying that a model is no longer served: its error
    code, which the text of the exception quotes. *)
Definition says_model_retired (e : Exception) : Prop :=
  str_in "model_decommissioned" (exc_str e) = true.

(** The error contract of the specification (section 4.2), in its words:
    whatever makes the provider call fail, the client fails with a
    [ProviderError], and with the distinguishable [ModelRetiredError] when
    the failure says that the model is no longer served. *)
Definition spec_error_contract
    (client : string -> (Request -> Outcome string) -> string ->
              Script (Outcome string)) : Prop :=
  forall key invoke question w e,
    invoke (request_for key (settings (session w)) question) = Raise e ->
    exists e',
      fst (client key invoke question w) = inl (Raise e') /\
      (exc_class e' = "ProviderError" \/ exc_class e' = "ModelRetiredError") /\
      (says_model_retired e -> exc_class e' = "ModelRetiredError").

(** ** Stubbed providers

    The completion clients the specification tests against (section 8): one
    that answers every request with a fixed text, one that fails every
    request with a fixed exception. *)
Definition stub_answers (text : string) : Request -> Outcome string :=
  fun _ => Return text.

Definition stub_fails (e : Exception) : Request -> Outcome string :=
  fun _ => Raise e.

(** What the provider's client raises for a retired model, and for a request
    that cannot reach the provider. *)
Definition decommissioned_error : Exception :=
  {| exc_class := "BadRequestError";
     exc_str :=
       "Error code: 400 - The model `gemma2-9b-it` has been decommissioned and is no longer supported. code: model_decommissioned" |}.

Definition connection_error : Exception :=
  {| exc_class := "APIConnectionError"; exc_str := "Connection error." |}.

(** A run in which the user submitted [q] with the sidebar untouched. *)
Definition submit (q : string) : Inputs :=
  {| btn_get_started := false; btn_landing_setup := false;
     btn_landing_chat := false;
     sel_model := None; sld_temperature := None; sld_max_tokens := None;
     btn_back := false; btn_save := false; btn_continue := false;
     sb_model := None; sb_temperature := None; sb_max_tokens := None;
     btn_clear := false; btn_home := false; btn_chat_setup := false;
     chat_input := Some q |}.

(** A session on the chat page with the default settings and the transcript
    [m]. *)
Definition chat_store (m : list Message) : Store :=
  {| st_page := Some "chat";
     st_settings := Some default_settings;
     st_messages := Some m |}.

(** A click on Clear chat, with the sidebar as in [w]. *)
Definition press_clear (w : Inputs) : Inputs :=
  {| btn_get_started := false; btn_landing_setup := false;
     btn_landing_chat := false;
     sel_model := sel_model w; sld_temperature := sld_temperature w;
     sld_max_tokens := sld_max_tokens w;
     btn_back := false; btn_save := false; btn_continue := false;
     sb_model := sb_model w; sb_temperature := sb_temperature w;
     sb_max_tokens := sb_max_tokens w;
     btn_clear := true; btn_home := false; btn_chat_setup := false;
     chat_input := None |}.

(** A click on Save Settings with option [n] of the selector and the two
    sliders at [t] and [k]. *)
Definition press_save (n : nat) (t : float) (k : Z) : Inputs :=
  {| btn_get_started := false; btn_landing_setup := false;
     btn_landing_chat := false;
     sel_model := Some n; sld_temperature := Some t;
     sld_max_tokens := Some k;
     btn_back := false; btn_save := true; btn_continue := false;
     sb_model := None; sb_temperature := None; sb_max_tokens := None;
     btn_clear := false; btn_home := false; btn_chat_setup := false;
     chat_input := None |}.

(** A session on the setup page with the default settings. *)
Definition setup_store : Store :=
  {| st_page := Some "setup";
     st_settings := Some default_settings;
     st_messages := Some [] |}.

(** ** Assets helpers *)

Module Assets.

(** A [pathlib.Path] as far as the script looks at one: its text, and its
    [suffix] (the last dot of the file name with what follows it, empty when
    the name has none). *)
Record Path := { path_text : string; suffix : string }.

(** Text made of ASCII characters only. *)
Definition is_ascii (s : string) : bool :=
  forallb (fun c => (N_of_ascii c <? 128)%N) (list_ascii_of_string s).

(** [str.lower()] on ASCII text (see [is_ascii]), where it changes the
    letters [A] to [Z] and nothing else; on other text Python also maps
    letters outside ASCII, which this definition does not follow. *)
Definition lower_char (c : ascii) : ascii :=
  let n := N_of_ascii c in
  if ((65 <=? n) && (n <=? 90))%N then ascii_of_N (n + 32) else c.

Fixpoint lower (s : string) : string :=
  match s with
  | EmptyString => EmptyString
  | String c rest => String (lower_char c) (lower rest)
  end.

(** [s.replace(".", "")]. *)
Fixpoint remove_dots (s : string) : string :=
  match s with
  | EmptyString => EmptyString
  | String c rest =>
      if Ascii.eqb c "." then remove_dots rest
      else String c (remove_dots rest)
  end.

(** [base64.b64encode(data).decode("utf-8")]: the standard alphabet, three
    bytes to four characters, ["="] padding on the last group. *)
Definition ALPHABET : string :=
  "ABCDEFGHIJKLMNOPQRSTUVWXYZabcdefghijklmnopqrstuvwxyz0123456789+/".

Definition sextet (n : N) : ascii :=
  match String.get (N.to_nat n) ALPHABET with
  | Some c => c
  | None => "="%char
  end.

Fixpoint b64encode (data : list Byte.byte) : string :=
  match data with
  | [] => ""
  | [a] =>
      let x := Byte.to_N a in
      String (sextet (x / 4))
        (String (sextet (x mod 4 * 16)) "==")
  | [a; b] =>
      let x := Byte.to_N a in
      let y := Byte.to_N b in
      String (sextet (x / 4))
        (String (sextet (x mod 4 * 16 + y / 16))
           (String (sextet (y mod 16 * 4)) "="))
  | a :: b :: c :: rest =>
      let x := Byte.to_N a in
      let y := Byte.to_N b in
      let z := Byte.to_N c in
      String (sextet (x / 4))
        (String (sextet (x mod 4 * 16 + y / 16))
           (String (sextet (y mod 16 * 4 + z / 64))
              (String (sextet (z mod 64)) (b64encode rest))))
  end%N.

(** The reader's side of a data URI: Base64 text back to bytes.  It is not
    part of the script; the browser does it with the payload. *)
Fixpoint index_of (c : ascii) (s : string) : option N :=
  match s with
  | EmptyString => None
  | String d rest =>
      if Ascii.eqb c d then Some 0%N
      else option_map N.succ (index_of c rest)
  end.

Definition unsextet (c : ascii) : option N := index_of c ALPHABET.

Fixpoint b64decode (s : string) : option (list Byte.byte) :=
  match s with
  | EmptyString => Some []
  | String c0 (String c1 (String c2 (String c3 rest))) =>
      match unsextet c0, unsextet c1 with
      | Some s0, Some s1 =>
          match Byte.of_N (s0 * 4 + s1 / 16) with
          | None => None
          | Some b0 =>
              if Ascii.eqb c2 "=" then
                if Ascii.eqb c3 "=" then
                  match rest with
                  | EmptyString => Some [b0]
                  | _ => None
                  end
                else None
              else
                match unsextet c2 with
                | None => None
                | Some s2 =>
                    match Byte.of_N (s1 mod 16 * 16 + s2 / 4) with
                    | None => None
                    | Some b1 =>
                        if Ascii.eqb c3 "=" then
                          match rest with
                          | EmptyString => Some [b0; b1]
                          | _ => None
                          end
                        else
                          match unsextet c3, b64decode rest with
                          | Some s3, Some tail =>
                              match Byte.of_N (s2 mod 4 * 64 + s3) with
                              | Some b2 => Some (b0 :: b1 :: b2 :: tail)
                              | None => None
                              end
                          | _, _ => None
                          end
                    end
                end
          end
      | _, _ => None
      end
  | _ => None
  end%N.

(** The characters a data URI of a [.png] file is made of: letters, digits
    and [+ / = : ; ,]. *)
Definition uri_char (c : ascii) : bool :=
  match index_of c ALPHABET with
  | Some _ => true
  | None =>
      Ascii.eqb c "=" || Ascii.eqb c ":" || Ascii.eqb c ";" || Ascii.eqb c ","
  end.

(** What [set_page_background] draws: the warning, and the style block with
    the URL of its background image. *)
Inductive Element : Type :=
| Warning (text : string)
| Style (data_uri : string).

Section Files.

(** The files of the deployment: the bytes at a path, [None] where
    [exists()] is false.  [ASSETS_DIR] is the text of that path. *)
Variable read_bytes : string -> option (list Byte.byte).
Variable ASSETS_DIR : string.

Definition img_to_data_uri (img_path : Path) : string :=
  match read_bytes (path_text img_path) with
  | None => ""
  | Some data =>
      let b64 := b64encode data in
      let ext := remove_dots (lower (suffix img_path)) in
      let mime := if String.eqb ext "png" then "png" else ext in
      "data:image/" ++ mime ++ ";base64," ++ b64
  end.

(** [ASSETS_DIR / name] for a file name with the given suffix. *)
Definition asset (name sfx : string) : Path :=
  {| path_text := ASSETS_DIR ++ "/" ++ name; suffix := sfx |}.

(** [mapping.get(page_name, ASSETS_DIR / "1.png")]. *)
Definition mapping_get (page_name : string) : Path :=
  if String.eqb page_name "landing" then asset "1.png" ".png"
  else if String.eqb page_name "setup" then asset "2.png" ".png"
  else if String.eqb page_name "chat" then asset "3.png" ".png"
  else asset "1.png" ".png".

Definition set_page_background (page_name : string) : list Element :=
  let img_path := mapping_get page_name in
  let data_uri := img_to_data_uri img_path in
  if negb (truthy data_uri) then
    [ Warning ("Background image missing: " ++ path_text img_path
               ++ ". Put it inside assets/.");
      Style "" ]
  else [ Style data_uri ].

End Files.

(** A deployment whose three images are present, each holding [data]. *)
Definition all_present (data : list Byte.byte)
    : string -> option (list Byte.byte) :=
  fun _ => Some data.

(** The eight bytes every PNG file starts with. *)
Definition PNG_SIGNATURE : list Byte.byte :=
  [ Byte.x89; Byte.x50; Byte.x4e; Byte.x47;
    Byte.x0d; Byte.x0a; Byte.x1a; Byte.x0a ].

End Assets.

(** ** Vocabulary for the transcript and the screen *)

(** A transcript made of exchanges: each is a non-empty question of the
    user, followed by at most one answer of the assistant. *)
Inductive Exchanges : list Message -> Prop :=
| Exchanges_none : Exchanges []
| Exchanges_unanswered (l : list Message) (q : string) :
    Exchanges l -> truthy q = true ->
    Exchanges (l ++ [ {| role := "user"; content := q |} ])
| Exchanges_answered (l : list Message) (q answer : string) :
    Exchanges l -> truthy q = true ->
    Exchanges (l ++ [ {| role := "user"; content := q |};
                      {| role := "assistant"; content := answer |} ]).

(** The chat bubbles on the screen, in order, as messages. *)
Fixpoint bubbles_drawn (l : list UI) : list Message :=
  match l with
  | [] => []
  | ChatBubble who body :: rest =>
      {| role := who; content := body |} :: bubbles_drawn rest
  | _ :: rest => bubbles_drawn rest
  end.

(** The chat messages on the screen that hold an error box instead of text:
    whose they are, and the text of the error. *)
Fixpoint chat_errors_drawn (l : list UI) : list (string * string) :=
  match l with
  | [] => []
  | ChatErrorBox who text :: rest => (who, text) :: chat_errors_drawn rest
  | _ :: rest => chat_errors_drawn rest
  end.

(** Whether the router gives a page value to [chat_page]. *)
Definition on_chat (p : string) : bool :=
  negb (String.eqb p "landing") && negb (String.eqb p "setup").

(** What a run without clicks draws for the session [s]. *)
Definition idle_screen (s : SessionState) : list UI :=
  if String.eqb (page s) "landing" then [Background "landing"]
  else if String.eqb (page s) "setup" then [Background "setup"]
  else Background "chat" :: map bubble (messages s).

(** A run of the chat page in which the sidebar holds option [n] and the two
    sliders are at [t] and [k], with nothing clicked or submitted. *)
Definition sidebar_edit (n : nat) (t : float) (k : Z) : Inputs :=
  {| btn_get_started := false; btn_landing_setup := false;
     btn_landing_chat := false;
     sel_model := None; sld_temperature := None; sld_max_tokens := None;
     btn_back := false; btn_save := false; btn_continue := false;
     sb_model := Some n; sb_temperature := Some t; sb_max_tokens := Some k;
     btn_clear := false; btn_home := false; btn_chat_setup := false;
     chat_input := None |}.

(** A session state left over from before the allow-list lost
    [gemma2-9b-it]: it still names that model. *)
Definition retired_store : Store :=
  {| st_page := Some "landing";
     st_settings :=
       Some {| model := "gemma2-9b-it";
               temperature := 0x1.6666666666666p-1;
               max_tokens := 512 |};
     st_messages := Some [] |}.

(** A click on Save Settings with the setup widgets as in [w]. *)
Definition press_save_only (w : Inputs) : Inputs :=
  {| btn_get_started := false; btn_landing_setup := false;
     btn_landing_chat := false;
     sel_model := sel_model w; sld_temperature := sld_temperature w;
     sld_max_tokens := sld_max_tokens w;
     btn_back := false; btn_save := true; btn_continue := false;
     sb_model := sb_model w; sb_temperature := sb_temperature w;
     sb_max_tokens := sb_max_tokens w;
     btn_clear := false; btn_home := false; btn_chat_setup := false;
     chat_input := None |}.

(** * Properties *)

(** ** Runs of the pages *)

Ltac run_script :=
  cbv beta iota zeta delta
    [bind ret when go st_rerun signal get_state put_state draw
     set_page set_settings set_messages messages_append settings_update
     set_page_background generate_response
     landing_page setup_page chat_page router
     session screen sent page settings messages fst snd].

Lemma show_history_run (l : list Message) (w : World) :
  show_history l w =
  (inl tt,
   {| session := session w;
      screen := screen w ++ map bubble l;
      sent := sent w |}).
Proof.
  revert w. induction l as [| m l IH]; intros w.
  - simpl. rewrite app_nil_r. destruct w; reflexivity.
  - simpl. unfold bind at 1. unfold draw at 1.
    rewrite IH. simpl. rewrite <- app_assoc. reflexivity.
Qed.

Lemma generate_response_run key invoke question (w : World) :
  generate_response key invoke question w =
  (inl (invoke (request_for key (settings (session w)) question)),
   {| session := session w;
      screen := screen w;
      sent := sent w ++ [request_for key (settings (session w)) question] |}).
Proof. reflexivity. Qed.

Lemma chat_page_submit key invoke (i : Inputs) (q : string) (w : World) :
  submits i q ->
  chat_page key invoke i w =
  let c := sidebar_settings i (settings (session w)) in
  let r := request_for key c q in
  let user := {| role := "user"; content := q |} in
  let drawn :=
    (((screen w ++ [Background "chat"]) ++ map bubble (messages (session w)))
       ++ [ChatBubble "user" q])%list in
  match invoke r with
  | Return answer =>
      (inl tt,
       {| session :=
            {| page := page (session w);
               settings := c;
               messages :=
                 (messages (session w) ++ [user])
                   ++ [{| role := "assistant"; content := answer |}] |};
          screen := (drawn ++ [ChatBubble "assistant" answer])%list;
          sent := sent w ++ [r] |})
  | Raise e =>
      (inl tt,
       {| session :=
            {| page := page (session w);
               settings := c;
               messages := messages (session w) ++ [user] |};
          screen :=
            (drawn ++
             [ChatErrorBox "assistant"
                (if str_in "model_decommissioned" (exc_str e)
                    || str_in "decommissioned" (exc_str e)
                 then RETIRED_HINT
                 else ("Error: " ++ exc_str e)%string)])%list;
          sent := sent w ++ [r] |})
  end.
Proof.
  intros (Hc & Hh & Hs & Hq & Ht).
  unfold chat_page. run_script.
  rewrite Hc, Hh, Hs, Hq. run_script.
  rewrite show_history_run. run_script. rewrite Ht.
  unfold sidebar_settings, request_for, prompt, float_, int_.
  destruct (invoke _) as [answer | e]; run_script.
  - reflexivity.
  - destruct (_ || _); reflexivity.
Qed.

(** The chat page when a sidebar button is clicked, and when nothing is. *)
Lemma chat_page_clear key invoke (i : Inputs) (w : World) :
  btn_clear i = true ->
  chat_page key invoke i w =
  (inr RerunRequested,
   {| session :=
        {| page := page (session w);
           settings := sidebar_settings i (settings (session w));
           messages := [] |};
      screen := (screen w ++ [Background "chat"])%list;
      sent := sent w |}).
Proof. intros Hc. unfold chat_page. run_script. rewrite Hc. reflexivity. Qed.

Lemma chat_page_home key invoke (i : Inputs) (w : World) :
  btn_clear i = false -> btn_home i = true ->
  chat_page key invoke i w =
  (inr RerunRequested,
   {| session :=
        {| page := "landing";
           settings := sidebar_settings i (settings (session w));
           messages := messages (session w) |};
      screen := (screen w ++ [Background "chat"])%list;
      sent := sent w |}).
Proof.
  intros Hc Hh. unfold chat_page. run_script. rewrite Hc, Hh. reflexivity.
Qed.

Lemma chat_page_setup key invoke (i : Inputs) (w : World) :
  btn_clear i = false -> btn_home i = false -> btn_chat_setup i = true ->
  chat_page key invoke i w =
  (inr RerunRequested,
   {| session :=
        {| page := "setup";
           settings := sidebar_settings i (settings (session w));
           messages := messages (session w) |};
      screen := (screen w ++ [Background "chat"])%list;
      sent := sent w |}).
Proof.
  intros Hc Hh Hs. unfold chat_page. run_script. rewrite Hc, Hh, Hs.
  reflexivity.
Qed.

Lemma chat_page_idle key invoke (i : Inputs) (w : World) :
  btn_clear i = false -> btn_home i = false -> btn_chat_setup i = false ->
  truthy_opt (chat_input i) = false ->
  chat_page key invoke i w =
  (inl tt,
   {| session :=
        {| page := page (session w);
           settings := sidebar_settings i (settings (session w));
           messages := messages (session w) |};
      screen :=
        ((screen w ++ [Background "chat"])
           ++ map bubble (messages (session w)))%list;
      sent := sent w |}).
Proof.
  intros Hc Hh Hs Hq. unfold chat_page. run_script.
  rewrite Hc, Hh, Hs. run_script. rewrite show_history_run. run_script.
  destruct (chat_input i) as [q |]; [| reflexivity].
  simpl in Hq. rewrite Hq. reflexivity.
Qed.

(** The landing page, button by button. *)
Lemma landing_page_run (i : Inputs) (w : World) :
  landing_page i w =
  let top := (screen w ++ [Background "landing"])%list in
  let to p :=
    (inr RerunRequested,
     {| session :=
          {| page := p;
             settings := settings (session w);
             messages := messages (session w) |};
        screen := top;
        sent := sent w |}) in
  if btn_get_started i then to "setup"
  else if btn_landing_setup i then to "setup"
  else if btn_landing_chat i then to "chat"
  else (inl tt, {| session := session w; screen := top; sent := sent w |}).
Proof.
  unfold landing_page. run_script.
  destruct (btn_get_started i), (btn_landing_setup i), (btn_landing_chat i);
    reflexivity.
Qed.

Lemma setup_page_run (i : Inputs) (w : World) :
  setup_page i w =
  let s := session w in
  let top := (screen w ++ [Background "setup"])%list in
  let new := setup_values i (settings s) in
  if btn_back i then
    (inr RerunRequested,
     {| session :=
          {| page := "landing"; settings := settings s;
             messages := messages s |};
        screen := top; sent := sent w |})
  else
    let c := if btn_save i then new else settings s in
    let out :=
      if btn_save i then (top ++ [SuccessBox "Saved ✅"])%list else top in
    if btn_continue i then
      (inr RerunRequested,
       {| session :=
            {| page := "chat"; settings := new; messages := messages s |};
          screen := out; sent := sent w |})
    else
      (inl tt,
       {| session :=
            {| page := page s; settings := c; messages := messages s |};
          screen := out; sent := sent w |}).
Proof.
  unfold setup_page, setup_values. run_script.
  destruct (btn_back i), (btn_save i), (btn_continue i);
    try reflexivity; destruct w as [[p c m] sc sn]; reflexivity.
Qed.

(** ** Runs of the script *)

Lemma init_session_store_of (s : SessionState) :
  init_session (store_of s) = s.
Proof. destruct s; reflexivity. Qed.

Lemma router_run key invoke (i : Inputs) (w : World) :
  router key invoke i w =
  if String.eqb (page (session w)) "landing" then landing_page i w
  else if String.eqb (page (session w)) "setup" then setup_page i w
  else chat_page key invoke i w.
Proof.
  unfold router, bind, get_state.
  destruct (String.eqb (page (session w)) "landing"),
    (String.eqb (page (session w)) "setup"); reflexivity.
Qed.

Lemma router_fresh key invoke (i : Inputs) (s : SessionState) :
  router key invoke i (fresh s) =
  if String.eqb (page s) "landing" then landing_page i (fresh s)
  else if String.eqb (page s) "setup" then setup_page i (fresh s)
  else chat_page key invoke i (fresh s).
Proof. apply router_run. Qed.

Lemma pages_drawn_bubbles (l : list Message) : pages_drawn (map bubble l) = [].
Proof. induction l; simpl; auto. Qed.

Lemma pages_drawn_app (l1 l2 : list UI) :
  pages_drawn (l1 ++ l2) = (pages_drawn l1 ++ pages_drawn l2)%list.
Proof.
  induction l1 as [| u l1 IH]; simpl; [reflexivity |].
  destruct u; simpl; rewrite IH; reflexivity.
Qed.

Lemma router_no_inputs key invoke (s : SessionState) :
  exists out,
    router key invoke no_inputs (fresh s) =
    (inl tt, {| session := settled s; screen := out; sent := [] |}) /\
    pages_drawn out =
    [ if String.eqb (page s) "landing" then "landing"
      else if String.eqb (page s) "setup" then "setup"
      else "chat" ].
Proof.
  rewrite router_run. unfold settled. simpl.
  destruct (String.eqb (page s) "landing").
  - rewrite landing_page_run. simpl. destruct s. eauto.
  - destruct (String.eqb (page s) "setup").
    + rewrite setup_page_run. simpl. destruct s. eauto.
    + rewrite chat_page_idle by reflexivity. simpl.
      eexists. split; [reflexivity |].
      simpl. now rewrite pages_drawn_bubbles.
Qed.

Section WithKey.

Variables (secrets : Secrets) (env : option string).
Variable invoke : Request -> Outcome string.
Variable key : string.
Hypothesis key_found : groq_api_key secrets env = Return (Some key).
Hypothesis key_truthy : truthy key = true.

Lemma script_keyed (i : Inputs) (st : Store) :
  script secrets env invoke i st =
  result_of (router key invoke i (fresh (init_session st))).
Proof. unfold script. rewrite key_found, key_truthy. reflexivity. Qed.

(** The session an interaction leaves: that of its run, settled by the
    follow-up run when the first one asked for a rerun. *)
Lemma interact_session (i : Inputs) (st : Store) :
  init_session (store_after (interact secrets env invoke i st)) =
  let r := router key invoke i (fresh (init_session st)) in
  match fst r with
  | inr RerunRequested => settled (session (snd r))
  | _ => session (snd r)
  end.
Proof.
  unfold interact. rewrite script_keyed.
  destruct (router key invoke i (fresh (init_session st)))
    as [[u | [|]] w]; simpl; try apply init_session_store_of.
  rewrite script_keyed, init_session_store_of.
  destruct (router_no_inputs key invoke (session w)) as (out & E & _).
  rewrite E. simpl. apply init_session_store_of.
Qed.

(** The follow-up run never asks for another rerun: an interaction is over
    after at most two runs. *)
Lemma follow_up_run_completes (st : Store) :
  stopped_by (script secrets env invoke no_inputs st) = None.
Proof.
  rewrite script_keyed.
  destruct (router_no_inputs key invoke (init_session st)) as (out & E & _).
  rewrite E. reflexivity.
Qed.

(** One navigation click moves the page as the table says and keeps the
    transcript. *)
Lemma press_step (a : Nav) (w : Inputs) (st : Store) :
  valid_page (page (init_session st)) ->
  let s' :=
    init_session (store_after (interact secrets env invoke (press a w) st))
  in
  page s' =
    match spec_transition (page (init_session st)) a with
    | Some q => q
    | None => page (init_session st)
    end /\
  messages s' = messages (init_session st).
Proof.
  intros V. cbv zeta. rewrite interact_session. cbv zeta.
  revert V. generalize (init_session st). intros [p c m] V.
  rewrite router_run. simpl in V |- *.
  destruct V as [E | [E | E]]; subst p; simpl String.eqb; cbv iota.
  - rewrite landing_page_run. destruct a; simpl; auto.
  - rewrite setup_page_run. destruct a; simpl; auto.
  - destruct a;
      first
        [ rewrite chat_page_home by reflexivity
        | rewrite chat_page_setup by reflexivity
        | rewrite chat_page_idle by reflexivity ];
      simpl; auto.
Qed.

Lemma spec_transition_valid (p : string) (a : Nav) :
  valid_page p ->
  valid_page
    match spec_transition p a with
    | Some q => q
    | None => p
    end.
Proof.
  unfold valid_page.
  intros [E | [E | E]]; subst p; destruct a; simpl; auto.
Qed.

End WithKey.

(** ** The router *)

(** Case analysis on a run of the chat page, in the order the page reads its
    widgets. *)
Ltac chat_cases key invoke i :=
  let Hc := fresh "Hc" in
  let Hh := fresh "Hh" in
  let Hs := fresh "Hs" in
  let Hq := fresh "Hq" in
  let Hi := fresh "Hi" in
  let q := fresh "q" in
  destruct (btn_clear i) eqn:Hc;
  [ rewrite (chat_page_clear key invoke i) by assumption
  | destruct (btn_home i) eqn:Hh;
    [ rewrite (chat_page_home key invoke i) by assumption
    | destruct (btn_chat_setup i) eqn:Hs;
      [ rewrite (chat_page_setup key invoke i) by assumption
      | destruct (truthy_opt (chat_input i)) eqn:Hq;
        [ destruct (chat_input i) as [q |] eqn:Hi;
          [ rewrite (chat_page_submit key invoke i q)
              by (repeat split; assumption);
            cbv zeta; destruct (invoke _)
          | discriminate ]
        | rewrite (chat_page_idle key invoke i) by assumption ] ] ] ].

Lemma chat_page_draws key invoke (i : Inputs) (w : World) :
  pages_drawn (screen (snd (chat_page key invoke i w))) =
  (pages_drawn (screen w) ++ ["chat"])%list.
Proof.
  chat_cases key invoke i; simpl;
    rewrite !pages_drawn_app, ?pages_drawn_bubbles; simpl;
    now rewrite ?app_nil_r.
Qed.

Lemma chat_page_settings key invoke (i : Inputs) (w : World) :
  settings (session (snd (chat_page key invoke i w))) =
  sidebar_settings i (settings (session w)).
Proof. chat_cases key invoke i; reflexivity. Qed.

Lemma chat_page_sent key invoke (i : Inputs) (w : World) (r : Request) :
  In r (sent (snd (chat_page key invoke i w))) ->
  In r (sent w) \/
  exists q, r = request_for key (sidebar_settings i (settings (session w))) q.
Proof.
  chat_cases key invoke i; simpl; auto;
    intros H; apply in_app_or in H; destruct H as [H | [H | []]]; eauto.
Qed.

(** C10.  The router is total over the page field: whatever string the
    session holds, a run draws exactly one page; it is the landing page for
    ["landing"], the setup page for ["setup"], and the chat page for every
    other value. *)
Theorem router_total key invoke (i : Inputs) (w : World) :
  pages_drawn (screen (snd (router key invoke i w))) =
    (pages_drawn (screen w) ++
     [ if String.eqb (page (session w)) "landing" then "landing"
       else if String.eqb (page (session w)) "setup" then "setup"
       else "chat" ])%list /\
  (page (session w) = "landing" ->
   router key invoke i w = landing_page i w) /\
  (page (session w) = "setup" ->
   router key invoke i w = setup_page i w) /\
  (page (session w) <> "landing" -> page (session w) <> "setup" ->
   router key invoke i w = chat_page key invoke i w).
Proof.
  rewrite router_run.
  destruct (String.eqb_spec (page (session w)) "landing") as [E | N].
  - repeat split; try congruence.
    rewrite landing_page_run. cbv zeta.
    destruct (btn_get_started i), (btn_landing_setup i), (btn_landing_chat i);
      simpl; now rewrite pages_drawn_app.
  - destruct (String.eqb_spec (page (session w)) "setup") as [E' | N'].
    + repeat split; try congruence.
      rewrite setup_page_run. cbv zeta.
      destruct (btn_back i), (btn_save i), (btn_continue i);
        simpl; rewrite ?pages_drawn_app; simpl; now rewrite ?app_nil_r.
    + repeat split; try congruence. apply chat_page_draws.
Qed.

(** A session whose page field holds a string outside the three names is
    shown the chat page. *)
Lemma router_total_witness :
  router "gsk_test" (stub_answers "ok") no_inputs
    (fresh {| page := "profile"; settings := default_settings;
              messages := [] |}) =
  chat_page "gsk_test" (stub_answers "ok") no_inputs
    (fresh {| page := "profile"; settings := default_settings;
              messages := [] |}).
Proof.
  apply (router_total "gsk_test" (stub_answers "ok") no_inputs
           (fresh {| page := "profile"; settings := default_settings;
                     messages := [] |}));
    simpl; discriminate.
Defined.

(** ** The credential check *)

Lemma script_halted secrets env invoke (k : option string) :
  groq_api_key secrets env = Return k -> truthy_opt k = false ->
  forall i st, script secrets env invoke i st = halted st.
Proof.
  intros F H i st. unfold script. rewrite F.
  destruct k as [k |]; [| reflexivity].
  simpl in H. rewrite H. reflexivity.
Qed.

Lemma interact_halted secrets env invoke (k : option string) :
  groq_api_key secrets env = Return k -> truthy_opt k = false ->
  forall i st, interact secrets env invoke i st = halted st.
Proof.
  intros F H i st. unfold interact. rewrite (script_halted _ _ _ _ F H).
  reflexivity.
Qed.

Lemma script_crashed secrets env invoke (e : Exception) :
  groq_api_key secrets env = Raise e ->
  forall i st, script secrets env invoke i st = crashed e st.
Proof. intros F i st. unfold script. rewrite F. reflexivity. Qed.

Lemma interact_crashed secrets env invoke (e : Exception) :
  groq_api_key secrets env = Raise e ->
  forall i st, interact secrets env invoke i st = crashed e st.
Proof.
  intros F i st. unfold interact. rewrite (script_crashed _ _ _ _ F).
  reflexivity.
Qed.

(** A start either finds a usable key, or no interaction of the session
    writes the session state, sends a request or draws a page. *)
Lemma key_cases secrets env invoke :
  (exists key,
     groq_api_key secrets env = Return (Some key) /\ truthy key = true) \/
  (forall i st,
     store_after (interact secrets env invoke i st) = st /\
     requests (interact secrets env invoke i st) = [] /\
     pages_drawn (shown (interact secrets env invoke i st)) = []).
Proof.
  destruct (groq_api_key secrets env) as [k | e] eqn:F.
  - destruct (truthy_opt k) eqn:K.
    + left. destruct k as [key |]; [| discriminate]. eauto.
    + right. intros i st. rewrite (interact_halted _ _ _ _ F K).
      repeat split.
  - right. intros i st. rewrite (interact_crashed _ _ _ _ F). repeat split.
Qed.

(** With a secrets file in place, a start that finds no key, or an empty
    one, stops in the key check: it shows the configuration error and nothing
    else, draws no page, sends no request and leaves the session state
    untouched; so does every interaction of the session. *)
Theorem missing_key_halts
    secrets env invoke (k : option string) (i : Inputs) (st : Store) :
  groq_api_key secrets env = Return k ->
  truthy_opt k = false ->
  script secrets env invoke i st = halted st /\
  interact secrets env invoke i st = halted st /\
  shown (interact secrets env invoke i st) = [ErrorBox KEY_MISSING_TEXT] /\
  pages_drawn (shown (interact secrets env invoke i st)) = [] /\
  stopped_by (interact secrets env invoke i st) = Some StopRequested /\
  forall l, run_session secrets env invoke l st = st.
Proof.
  intros F H.
  rewrite (script_halted secrets env invoke k F H).
  rewrite (interact_halted secrets env invoke k F H). repeat split.
  intros l. induction l as [| j l IH]; simpl; [reflexivity |].
  rewrite (interact_halted secrets env invoke k F H). exact IH.
Qed.

(** An empty secret shadows a key set in the environment: the run halts. *)
Lemma missing_key_halts_witness :
  script (SecretsFile (Some "")) (Some "gsk_test") (stub_answers "ok")
    (submit "hi") (chat_store []) = halted (chat_store []) /\
  pages_drawn
    (shown
       (interact (SecretsFile (Some "")) (Some "gsk_test") (stub_answers "ok")
          (submit "hi") (chat_store []))) = [].
Proof.
  pose proof (missing_key_halts (SecretsFile (Some "")) (Some "gsk_test")
                (stub_answers "ok") (Some "") (submit "hi") (chat_store [])
                eq_refl eq_refl)
    as (H1 & _ & _ & H4 & _).
  exact (conj H1 H4).
Defined.


(** ** The completion client *)

(** C7.  [generate_response] sends exactly one request: the fixed system
    instruction and the question in the user message (after the template's
    ["Question: "]), addressed to the model of the settings, with their
    temperature and their token bound; its result is the provider's. *)
Theorem generate_response_request key invoke (question : string) (w : World) :
  exists r : Request,
    generate_response key invoke question w =
      (inl (invoke r),
       {| session := session w; screen := screen w;
          sent := (sent w ++ [r])%list |}) /\
    req_messages r =
      [ ("system",
         "You are a helpful assistant. Answer clearly, politely, and accurately.");
        ("user", "Question: " ++ question) ] /\
    llm_model (req_llm r) = model (settings (session w)) /\
    llm_temperature (req_llm r) = temperature (settings (session w)) /\
    llm_max_tokens (req_llm r) = max_tokens (settings (session w)) /\
    llm_base_url (req_llm r) = "https://api.groq.com/openai/v1" /\
    llm_api_key (req_llm r) = key.
Proof.
  exists (request_for key (settings (session w)) question).
  rewrite generate_response_run. repeat split.
Qed.

(** ** Substrings *)

Lemma prefix_app (a s : string) :
  String.prefix a s = true <-> exists t, s = a ++ t.
Proof.
  revert s. induction a as [| c a IH]; intros s.
  - destruct s; simpl; (split; [intros _; eexists; reflexivity | reflexivity]).
  - destruct s as [| d s]; simpl.
    + split; [discriminate | intros [t H]; discriminate].
    + destruct (Ascii.ascii_dec c d) as [E | N].
      * subst d. rewrite IH. split; intros [t H]; exists t.
        -- now subst s.
        -- now injection H.
      * split; [discriminate |].
        intros [t H]. injection H as H1 H2. congruence.
Qed.

Lemma str_in_unfold (n s : string) :
  str_in n s =
  if String.prefix n s then true
  else match s with
       | EmptyString => false
       | String _ rest => str_in n rest
       end.
Proof. destruct s; reflexivity. Qed.

Lemma str_in_app (n s : string) :
  str_in n s = true <-> exists pre post, s = pre ++ n ++ post.
Proof.
  induction s as [| c s IH]; rewrite str_in_unfold;
    destruct (String.prefix n _) eqn:P.
  - split; [| reflexivity]. intros _.
    apply prefix_app in P. destruct P as [t P]. now exists "", t.
  - split; [discriminate |]. intros (pre & post & H).
    destruct pre; simpl in H; [| discriminate].
    assert (String.prefix n "" = true) by (apply prefix_app; eauto).
    congruence.
  - split; [| reflexivity]. intros _.
    apply prefix_app in P. destruct P as [t P]. now exists "", t.
  - rewrite IH. split.
    + intros (pre & post & H). exists (String c pre), post. now subst s.
    + intros (pre & post & H). destruct pre as [| d pre]; simpl in H.
      * assert (String.prefix n (String c s) = true)
          by (apply prefix_app; eauto).
        congruence.
      * injection H as H1 H2. eauto.
Qed.

Lemma append_assoc (a b c : string) : (a ++ b) ++ c = a ++ b ++ c.
Proof. induction a; simpl; congruence. Qed.

(** The first test of the handler is covered by the second. *)
Lemma retired_test (err : string) :
  str_in "model_decommissioned" err || str_in "decommissioned" err =
  str_in "decommissioned" err.
Proof.
  destruct (str_in "model_decommissioned" err) eqn:A; [| reflexivity].
  simpl. symmetry. apply str_in_app.
  apply str_in_app in A. destruct A as (pre & post & H).
  exists (pre ++ "model_"), post. rewrite H, append_assoc. reflexivity.
Qed.

Lemma errors_drawn_app (l1 l2 : list UI) :
  errors_drawn (l1 ++ l2) = (errors_drawn l1 ++ errors_drawn l2)%list.
Proof.
  induction l1 as [| u l1 IH]; simpl; [reflexivity |].
  destruct u; simpl; rewrite IH; reflexivity.
Qed.

Lemma errors_drawn_bubbles (l : list Message) :
  errors_drawn (map bubble l) = [].
Proof. induction l; simpl; auto. Qed.

(** ** Exchanges on the chat page *)

Section Exchange.

Variables (secrets : Secrets) (env : option string).
Variable invoke : Request -> Outcome string.
Variable key : string.
Hypothesis key_found : groq_api_key secrets env = Return (Some key).
Hypothesis key_truthy : truthy key = true.

Lemma interact_submit (i : Inputs) (q : string) (st : Store) :
  page (init_session st) = "chat" ->
  submits i q ->
  interact secrets env invoke i st =
  result_of (chat_page key invoke i (fresh (init_session st))).
Proof.
  intros P S. unfold interact.
  rewrite (script_keyed secrets env invoke key key_found key_truthy).
  rewrite router_run. simpl session. rewrite P. simpl String.eqb. cbv iota.
  rewrite (chat_page_submit key invoke i q) by assumption. cbv zeta.
  destruct (invoke _); reflexivity.
Qed.

(** C4.  On the chat page, a submitted question the provider answers adds
    exactly two messages at the end of the transcript, the user's question
    and then the assistant's answer; the messages before them, the page and
    the rest of the session are as the run found them. *)
Theorem answered_question_appends_two
    (i : Inputs) (q answer : string) (st : Store) :
  page (init_session st) = "chat" ->
  submits i q ->
  invoke (request_for key (sidebar_settings i (settings (init_session st))) q)
    = Return answer ->
  let r := interact secrets env invoke i st in
  st_messages (store_after r) =
    Some (messages (init_session st) ++
          [ {| role := "user"; content := q |};
            {| role := "assistant"; content := answer |} ])%list /\
  st_page (store_after r) = Some "chat" /\
  shown r =
    (Background "chat" :: map bubble (messages (init_session st)) ++
     [ ChatBubble "user" q; ChatBubble "assistant" answer ])%list /\
  requests r =
    [ request_for key (sidebar_settings i (settings (init_session st))) q ] /\
  stopped_by r = None.
Proof.
  intros P S A. cbv zeta. rewrite (interact_submit i q st P S).
  rewrite (chat_page_submit key invoke i q) by assumption. cbv zeta.
  unfold fresh. cbn [session screen sent]. rewrite A.
  unfold result_of. cbn [fst snd session screen sent store_after
    shown requests stopped_by app].
  rewrite ?init_session_store_of.
  unfold store_of. cbn [st_messages st_page page messages]. rewrite P.
  rewrite <- !app_assoc. simpl. repeat split.
Qed.

(** C3, as the code has it.  On the chat page, a submitted question whose
    provider call fails adds exactly one message, the user's question, and no
    assistant message; the run shows one error box (the retired-model hint
    when the text of the exception contains "decommissioned", the text after
    "Error: " otherwise).  The transcript is one message longer than before,
    so its length is odd exactly when it was even before the submission. *)
Theorem failed_question_appends_one
    (i : Inputs) (q : string) (e : Exception) (st : Store) :
  page (init_session st) = "chat" ->
  submits i q ->
  invoke (request_for key (sidebar_settings i (settings (init_session st))) q)
    = Raise e ->
  let old := messages (init_session st) in
  let r := interact secrets env invoke i st in
  st_messages (store_after r) =
    Some (old ++ [ {| role := "user"; content := q |} ])%list /\
  st_page (store_after r) = Some "chat" /\
  shown r =
    (Background "chat" :: map bubble old ++
     [ ChatBubble "user" q;
       ChatErrorBox "assistant"
         (if str_in "decommissioned" (exc_str e) then RETIRED_HINT
          else ("Error: " ++ exc_str e)%string) ])%list /\
  length (messages (init_session (store_after r))) = S (length old) /\
  Nat.odd (length (messages (init_session (store_after r)))) =
    Nat.even (length old) /\
  stopped_by r = None.
Proof.
  intros P S A. cbv zeta. rewrite (interact_submit i q st P S).
  rewrite (chat_page_submit key invoke i q) by assumption. cbv zeta.
  unfold fresh. cbn [session screen sent]. rewrite A.
  unfold result_of. cbn [fst snd session screen sent store_after
    shown requests stopped_by app].
  rewrite ?init_session_store_of.
  unfold store_of. cbn [st_messages st_page page messages]. rewrite P.
  rewrite <- !app_assoc, (retired_test (exc_str e)).
  rewrite length_app, Nat.add_1_r, Nat.odd_succ. repeat split.
Qed.

End Exchange.

(** C2, as the code has it.  [generate_response] returns what the provider
    call returns and lets the exception of a failed call escape unchanged: it
    wraps nothing and tags nothing.  The caller, [chat_page], tells a retired
    model from other failures by the text of the exception: it shows the hint
    when that text contains "decommissioned", and the text after "Error: "
    otherwise. *)
Theorem provider_errors_escape_unchanged
    key invoke (i : Inputs) (q : string) (e : Exception) (w : World) :
  submits i q ->
  invoke (request_for key (sidebar_settings i (settings (session w))) q)
    = Raise e ->
  (forall question w',
     fst (generate_response key invoke question w') =
     inl (invoke (request_for key (settings (session w')) question))) /\
  errors_drawn (screen (snd (chat_page key invoke i w))) =
    (errors_drawn (screen w) ++
     [ if str_in "decommissioned" (exc_str e) then RETIRED_HINT
       else ("Error: " ++ exc_str e)%string ])%list.
Proof.
  intros S A. split; [reflexivity |].
  rewrite (chat_page_submit key invoke i q) by assumption. cbv zeta.
  rewrite A. simpl.
  rewrite !errors_drawn_app, errors_drawn_bubbles, retired_test. simpl.
  now rewrite !app_nil_r.
Qed.

(** The specification's contract fails on the stub that reports a retired
    model: what escapes [generate_response] is the provider's own
    [BadRequestError]. *)
Lemma generate_response_breaks_error_contract :
  ~ spec_error_contract generate_response.
Proof.
  intros H.
  destruct (H "gsk_test" (stub_fails decommissioned_error) "hi"
              (fresh (init_session empty_store)) decommissioned_error
              eq_refl) as (e' & E & C & _).
  simpl in E. injection E as <-.
  destruct C as [C | C]; discriminate C.
Qed.

Lemma submit_submits (q : string) : truthy q = true -> submits (submit q) q.
Proof. intros H. repeat split. exact H. Qed.

(** The retired-model stub: the hint is the one error box on the screen. *)
Lemma provider_errors_escape_unchanged_witness :
  fst (generate_response "gsk_test" (stub_fails decommissioned_error) "hi"
         (fresh (init_session (chat_store [])))) =
    inl (Raise decommissioned_error) /\
  errors_drawn
    (screen
       (snd (chat_page "gsk_test" (stub_fails decommissioned_error)
               (submit "hi") (fresh (init_session (chat_store [])))))) =
    [RETIRED_HINT].
Proof.
  pose proof (provider_errors_escape_unchanged "gsk_test"
                (stub_fails decommissioned_error) (submit "hi") "hi"
                decommissioned_error (fresh (init_session (chat_store [])))
                (submit_submits "hi" eq_refl) eq_refl) as [G E].
  split; [exact (G "hi" _) | exact E].
Defined.

(** The answering stub on an empty transcript: question, then answer. *)
Lemma answered_question_appends_two_witness :
  st_messages
    (store_after
       (interact (SecretsFile (Some "gsk_test")) None (stub_answers "Paris.")
          (submit "Capital of France?") (chat_store []))) =
  Some [ {| role := "user"; content := "Capital of France?" |};
         {| role := "assistant"; content := "Paris." |} ].
Proof.
  exact (proj1
           (answered_question_appends_two (SecretsFile (Some "gsk_test")) None
              (stub_answers "Paris.") "gsk_test" eq_refl eq_refl
              (submit "Capital of France?") "Capital of France?" "Paris."
              (chat_store []) eq_refl
              (submit_submits "Capital of France?" eq_refl) eq_refl)).
Defined.

(** A failing stub on an empty transcript: the question alone, length one. *)
Lemma failed_question_appends_one_witness :
  st_messages
    (store_after
       (interact (SecretsFile (Some "gsk_test")) None (stub_fails connection_error)
          (submit "hi") (chat_store []))) =
  Some [ {| role := "user"; content := "hi" |} ].
Proof.
  exact (proj1
           (failed_question_appends_one (SecretsFile (Some "gsk_test")) None
              (stub_fails connection_error) "gsk_test" eq_refl eq_refl
              (submit "hi") "hi" connection_error
              (chat_store []) eq_refl (submit_submits "hi" eq_refl) eq_refl)).
Defined.

(** Two failed submissions in a row, from a new session: the second call
    fails like the first, its question is appended, and the transcript then
    holds two messages, an even number. *)
Lemma second_failure_leaves_even_length :
  let provider := stub_fails decommissioned_error in
  let st1 :=
    run_session (SecretsFile (Some "gsk_test")) None provider
      [press LandingChat no_inputs; submit "first"] empty_store in
  let r := interact (SecretsFile (Some "gsk_test")) None provider (submit "second") st1 in
  st_page st1 = Some "chat" /\
  st_messages st1 = Some [ {| role := "user"; content := "first" |} ] /\
  requests r = [ request_for "gsk_test" default_settings "second" ] /\
  provider (request_for "gsk_test" default_settings "second") =
    Raise decommissioned_error /\
  errors_drawn (shown r) = [RETIRED_HINT] /\
  st_messages (store_after r) =
    Some [ {| role := "user"; content := "first" |};
           {| role := "user"; content := "second" |} ] /\
  Nat.odd (length (messages (init_session (store_after r)))) = false.
Proof. vm_compute. repeat split. Qed.

(** ** Clearing the chat and saving settings *)

Lemma settled_page (s : SessionState) : page (settled s) = page s.
Proof.
  unfold settled.
  destruct (String.eqb (page s) "landing"), (String.eqb (page s) "setup");
    reflexivity.
Qed.

Lemma settled_messages (s : SessionState) : messages (settled s) = messages s.
Proof.
  unfold settled.
  destruct (String.eqb (page s) "landing"), (String.eqb (page s) "setup");
    reflexivity.
Qed.

(** Every option of the model selector is read back as itself. *)
Lemma model_index_nth (n : nat) (m : string) :
  nth_error MODEL_OPTIONS n = Some m ->
  nth (model_index m) MODEL_OPTIONS "" = m.
Proof.
  do 4 (destruct n as [| n];
        [intros H; injection H as <-; reflexivity |]).
  destruct n; discriminate.
Qed.

Section Controls.

Variables (secrets : Secrets) (env : option string).
Variable invoke : Request -> Outcome string.
Variable key : string.
Hypothesis key_found : groq_api_key secrets env = Return (Some key).
Hypothesis key_truthy : truthy key = true.

Lemma interact_rerun (i : Inputs) (st : Store) (w : World) :
  script secrets env invoke i st = result_of (inr RerunRequested, w) ->
  interact secrets env invoke i st =
  let r' := result_of (router key invoke no_inputs (fresh (session w))) in
  {| store_after := store_after r';
     shown := shown r';
     requests := (sent w ++ requests r')%list;
     stopped_by := stopped_by r';
     uncaught := uncaught r' |}.
Proof.
  intros R. unfold interact. rewrite R.
  change (stopped_by (result_of (inr RerunRequested, w)))
    with (Some RerunRequested).
  change (store_after (result_of (inr RerunRequested, w)))
    with (store_of (session w)).
  change (requests (result_of (inr RerunRequested, w))) with (sent w).
  cbv iota zeta.
  rewrite (script_keyed secrets env invoke key key_found key_truthy).
  rewrite init_session_store_of. reflexivity.
Qed.

Lemma transcript_kept_off_chat (i : Inputs) (st : Store) :
  page (init_session st) = "landing" \/ page (init_session st) = "setup" ->
  messages (init_session (store_after (interact secrets env invoke i st))) =
  messages (init_session st).
Proof.
  intros P.
  rewrite (interact_session secrets env invoke key key_found key_truthy).
  cbv zeta. rewrite router_fresh.
  destruct P as [P | P]; rewrite P; simpl String.eqb; cbv iota.
  - rewrite landing_page_run. cbv zeta.
    destruct (btn_get_started i), (btn_landing_setup i), (btn_landing_chat i);
      cbn [fst snd session]; rewrite ?settled_messages; reflexivity.
  - rewrite setup_page_run. cbv zeta.
    destruct (btn_back i), (btn_save i), (btn_continue i);
      cbn [fst snd session]; rewrite ?settled_messages; reflexivity.
Qed.

(** C6.  On the chat page a click on Clear chat leaves the transcript empty,
    whatever it held, and the page is still the chat page; the screen then
    shows no message.  On the landing and setup pages, where the button is not
    drawn, no interaction changes the transcript. *)
Theorem clear_chat_empties_transcript (i : Inputs) (st : Store) :
  page (init_session st) = "chat" ->
  btn_clear i = true ->
  let r := interact secrets env invoke i st in
  st_messages (store_after r) = Some [] /\
  st_page (store_after r) = Some "chat" /\
  shown r = [Background "chat"] /\
  requests r = [] /\
  forall j st',
    page (init_session st') = "landing" \/ page (init_session st') = "setup" ->
    messages (init_session (store_after (interact secrets env invoke j st')))
    = messages (init_session st').
Proof.
  intros P C. cbv zeta.
  assert (R : script secrets env invoke i st =
              result_of
                (inr RerunRequested,
                 {| session :=
                      {| page := "chat";
                         settings :=
                           sidebar_settings i (settings (init_session st));
                         messages := [] |};
                    screen := [Background "chat"];
                    sent := [] |})).
  { rewrite (script_keyed secrets env invoke key key_found key_truthy).
    rewrite router_fresh, P. simpl String.eqb. cbv iota.
    rewrite chat_page_clear by assumption.
    unfold fresh. cbn [session screen sent app]. now rewrite P. }
  rewrite (interact_rerun _ _ _ R). cbv zeta.
  rewrite router_fresh. cbn [session page]. simpl String.eqb. cbv iota.
  rewrite chat_page_idle by reflexivity.
  cbn. repeat split. apply transcript_kept_off_chat.
Qed.

(** C9.  On the setup page, Save Settings with a listed model, a temperature
    within [0.0, 1.0] and a token bound within [64, 2048] stores exactly
    those three values, and a later run whose widgets are left alone reads
    them back unchanged, on the setup page and in the chat sidebar. *)
Theorem save_settings_exact
    (i : Inputs) (st : Store) (n : nat) (m : string) (t : float) (k : Z) :
  page (init_session st) = "setup" ->
  btn_back i = false -> btn_save i = true -> btn_continue i = false ->
  sel_model i = Some n -> nth_error MODEL_OPTIONS n = Some m ->
  sld_temperature i = Some t -> in_range 0 1 t = true ->
  sld_max_tokens i = Some k -> (64 <= k <= 2048)%Z ->
  let saved := {| model := m; temperature := t; max_tokens := k |} in
  let r := interact secrets env invoke i st in
  st_settings (store_after r) = Some saved /\
  settings (init_session (store_after r)) = saved /\
  st_page (store_after r) = Some "setup" /\
  shown r = [Background "setup"; SuccessBox "Saved ✅"] /\
  setup_values no_inputs saved = saved /\
  sidebar_settings no_inputs saved = saved.
Proof.
  intros P Hb Hs Hc Hm Hn Ht Hr Hk Hz. cbv zeta.
  assert (V : setup_values i (settings (init_session st)) =
              {| model := m; temperature := t; max_tokens := k |}).
  { unfold setup_values, selectbox, slider, slider_int, float_, int_.
    rewrite Hm, Hn, Ht, Hr, Hk.
    replace ((64 <=? k)%Z && (k <=? 2048)%Z) with true; [reflexivity |].
    symmetry. apply andb_true_intro. split; apply Z.leb_le; lia. }
  assert (I : nth (model_index m) MODEL_OPTIONS "" = m)
    by (apply (model_index_nth n), Hn).
  unfold interact.
  rewrite (script_keyed secrets env invoke key key_found key_truthy).
  rewrite router_fresh, P. simpl String.eqb. cbv iota.
  rewrite setup_page_run. cbv zeta. rewrite Hb, Hs, Hc.
  change (session (fresh (init_session st))) with (init_session st).
  rewrite V.
  unfold fresh, result_of. cbn [fst snd session screen sent store_after
    stopped_by shown requests app].
  rewrite init_session_store_of. unfold store_of.
  cbn [st_settings st_page page settings]. rewrite P.
  unfold setup_values, sidebar_settings, selectbox, slider, slider_int,
    float_, int_.
  cbn [model temperature max_tokens sel_model sld_temperature sld_max_tokens
       sb_model sb_temperature sb_max_tokens no_inputs].
  rewrite I. repeat split.
Qed.

End Controls.

(** Clearing a transcript of two messages on the chat page. *)
Lemma clear_chat_empties_transcript_witness :
  st_messages
    (store_after
       (interact (SecretsFile (Some "gsk_test")) None (stub_answers "ok")
          (press_clear no_inputs)
          (chat_store [ {| role := "user"; content := "hi" |};
                        {| role := "assistant"; content := "hello" |} ]))) =
  Some [].
Proof.
  exact (proj1
           (clear_chat_empties_transcript (SecretsFile (Some "gsk_test")) None
              (stub_answers "ok") "gsk_test" eq_refl eq_refl
              (press_clear no_inputs)
              (chat_store [ {| role := "user"; content := "hi" |};
                            {| role := "assistant"; content := "hello" |} ])
              eq_refl eq_refl)).
Defined.

(** Saving the last model, temperature 0.25 and 1024 tokens. *)
Lemma save_settings_exact_witness :
  st_settings
    (store_after
       (interact (SecretsFile (Some "gsk_test")) None (stub_answers "ok")
          (press_save 3 0.25 1024) setup_store)) =
  Some {| model := "groq/compound"; temperature := 0.25;
          max_tokens := 1024 |}.
Proof.
  exact (proj1
           (save_settings_exact (SecretsFile (Some "gsk_test")) None (stub_answers "ok")
              "gsk_test" eq_refl eq_refl
              (press_save 3 0.25 1024) setup_store 3 "groq/compound"
              0.25%float 1024%Z
              eq_refl eq_refl eq_refl eq_refl eq_refl eq_refl eq_refl eq_refl
              eq_refl (conj (Zle_bool_imp_le 64 1024 eq_refl)
                            (Zle_bool_imp_le 1024 2048 eq_refl)))).
Defined.

(** ** The model allow-list *)

Lemma list_in_In (x : string) (l : list string) :
  list_in x l = true <-> In x l.
Proof.
  induction l as [| y l IH]; simpl.
  - split; [discriminate | tauto].
  - destruct (String.eqb_spec y x) as [E | N].
    + split; auto.
    + rewrite IH. split; auto. intros [E | H]; [contradiction | exact H].
Qed.

Lemma list_index_lt (x : string) (l : list string) (n : nat) :
  list_index x l = Some n -> (n < length l)%nat.
Proof.
  revert n. induction l as [| y l IH]; intros n; simpl; [discriminate |].
  destruct (String.eqb y x).
  - intros H. injection H as <-. lia.
  - destruct (list_index x l) as [k |]; [| discriminate].
    intros H. injection H as <-. specialize (IH k eq_refl). lia.
Qed.

(** The guard of the [index=] expression keeps [index] from raising. *)
Lemma list_index_found (x : string) (l : list string) :
  list_in x l = true -> list_index x l <> None.
Proof.
  induction l as [| y l IH]; simpl; [discriminate |].
  destruct (String.eqb y x); [discriminate |].
  intros H. specialize (IH H).
  destruct (list_index x l); [discriminate | contradiction].
Qed.

Lemma model_index_lt (m : string) :
  (model_index m < length MODEL_OPTIONS)%nat.
Proof.
  unfold model_index. destruct (list_in m MODEL_OPTIONS).
  - destruct (list_index m MODEL_OPTIONS) as [n |] eqn:E.
    + exact (list_index_lt _ _ _ E).
    + simpl. lia.
  - simpl. lia.
Qed.

Lemma selectbox_in (m : string) (pick : option nat) :
  In (selectbox MODEL_OPTIONS (model_index m) pick) MODEL_OPTIONS.
Proof.
  assert (D : In (nth (model_index m) MODEL_OPTIONS "") MODEL_OPTIONS)
    by (apply nth_In, model_index_lt).
  unfold selectbox. destruct pick as [n |]; [| exact D].
  destruct (nth_error MODEL_OPTIONS n) as [o |] eqn:E; [| exact D].
  exact (nth_error_In _ _ E).
Qed.

Lemma model_index_absent (m : string) :
  ~ In m MODEL_OPTIONS -> model_index m = 0%nat.
Proof.
  intros N. unfold model_index.
  destruct (list_in m MODEL_OPTIONS) eqn:E; [| reflexivity].
  apply list_in_In in E. contradiction.
Qed.

(** A run leaves the stored model alone or stores a listed one. *)
Lemma router_model key invoke (i : Inputs) (w : World) :
  let c' := settings (session (snd (router key invoke i w))) in
  model c' = model (settings (session w)) \/ In (model c') MODEL_OPTIONS.
Proof.
  cbv zeta. rewrite router_run.
  destruct (String.eqb (page (session w)) "landing").
  - rewrite landing_page_run. cbv zeta.
    destruct (btn_get_started i), (btn_landing_setup i), (btn_landing_chat i);
      left; reflexivity.
  - destruct (String.eqb (page (session w)) "setup").
    + rewrite setup_page_run. cbv zeta.
      destruct (btn_back i), (btn_save i), (btn_continue i);
        cbn [snd session settings];
        first [ left; reflexivity | right; apply selectbox_in ].
    + rewrite chat_page_settings. right. apply selectbox_in.
Qed.

Lemma settled_model (s : SessionState) :
  model (settings (settled s)) = model (settings s) \/
  In (model (settings (settled s))) MODEL_OPTIONS.
Proof.
  unfold settled.
  destruct (String.eqb (page s) "landing"), (String.eqb (page s) "setup");
    auto.
  right. apply selectbox_in.
Qed.

Lemma router_sent key invoke (i : Inputs) (w : World) (r : Request) :
  In r (sent (snd (router key invoke i w))) ->
  In r (sent w) \/ In (llm_model (req_llm r)) MODEL_OPTIONS.
Proof.
  rewrite router_run.
  destruct (String.eqb (page (session w)) "landing").
  - rewrite landing_page_run. cbv zeta.
    destruct (btn_get_started i), (btn_landing_setup i), (btn_landing_chat i);
      auto.
  - destruct (String.eqb (page (session w)) "setup").
    + rewrite setup_page_run. cbv zeta.
      destruct (btn_back i), (btn_save i), (btn_continue i); auto.
    + intros H. apply chat_page_sent in H. destruct H as [H | [q ->]]; auto.
      right. apply selectbox_in.
Qed.

Lemma interact_model secrets env invoke (i : Inputs) (st : Store) :
  let before := model (settings (init_session st)) in
  let after :=
    model (settings
             (init_session (store_after (interact secrets env invoke i st))))
  in
  after = before \/ In after MODEL_OPTIONS.
Proof.
  cbv zeta.
  destruct (key_cases secrets env invoke) as [(key & F & K) | N].
  - rewrite (interact_session secrets env invoke key F K). cbv zeta.
    pose proof (router_model key invoke i (fresh (init_session st))) as M.
    cbv zeta in M.
    destruct (router key invoke i (fresh (init_session st)))
      as [[u | [|]] w]; cbn [fst snd] in *; auto.
    destruct (settled_model (session w)) as [E | E]; [| auto].
    rewrite E. exact M.
  - destruct (N i st) as (NS & NR & _). rewrite ?NS, ?NR. auto.
Qed.

Lemma interact_sent secrets env invoke (i : Inputs) (st : Store) r :
  In r (requests (interact secrets env invoke i st)) ->
  In (llm_model (req_llm r)) MODEL_OPTIONS.
Proof.
  destruct (key_cases secrets env invoke) as [(key & F & K) | N].
  - unfold interact. rewrite (script_keyed secrets env invoke key F K).
    pose proof (router_sent key invoke i (fresh (init_session st)) r) as M.
    destruct (router key invoke i (fresh (init_session st)))
      as [[u | [|]] w];
      cbn [fst snd result_of stopped_by requests store_after] in *;
      try (intros H; destruct (M H) as [[] | H']; exact H').
    rewrite (script_keyed secrets env invoke key F K).
    rewrite init_session_store_of.
    destruct (router_no_inputs key invoke (session w)) as (out & E & _).
    rewrite E. cbn [fst snd result_of requests sent].
    rewrite app_nil_r. intros H. destruct (M H) as [[] | H']; exact H'.
  - destruct (N i st) as (NS & NR & _). rewrite ?NS, ?NR. intros [].
Qed.

Lemma run_session_model secrets env invoke (l : list Inputs) (st : Store) :
  In (model (settings (init_session st))) MODEL_OPTIONS ->
  In (model (settings (init_session (run_session secrets env invoke l st))))
     MODEL_OPTIONS.
Proof.
  revert st. induction l as [| i l IH]; intros st H; simpl; [exact H |].
  apply IH.
  destruct (interact_model secrets env invoke i st) as [E | E];
    [rewrite E; exact H | exact E].
Qed.

Lemma chat_interact_model secrets env invoke key (i : Inputs) (st : Store) :
  groq_api_key secrets env = Return (Some key) -> truthy key = true ->
  page (init_session st) <> "landing" -> page (init_session st) <> "setup" ->
  In (model
        (settings
           (init_session (store_after (interact secrets env invoke i st)))))
     MODEL_OPTIONS.
Proof.
  intros F K NL NS.
  rewrite (interact_session secrets env invoke key F K). cbv zeta.
  rewrite router_fresh.
  apply String.eqb_neq in NL, NS. rewrite NL, NS.
  pose proof (chat_page_settings key invoke i (fresh (init_session st))) as C.
  assert (M : In (model
                    (settings
                       (session
                          (snd (chat_page key invoke i
                                  (fresh (init_session st)))))))
                 MODEL_OPTIONS)
    by (rewrite C; apply selectbox_in).
  destruct (chat_page key invoke i (fresh (init_session st)))
    as [[u | [|]] w]; cbn [fst snd] in *; auto.
  destruct (settled_model (session w)) as [E | E]; [| exact E].
  rewrite E. exact M.
Qed.

(** ** Navigation *)

Lemma listed_model_index (m : string) :
  In m MODEL_OPTIONS -> nth (model_index m) MODEL_OPTIONS "" = m.
Proof.
  intros H. apply In_nth_error in H. destruct H as [n H].
  exact (model_index_nth n m H).
Qed.

(** The chat sidebar, left alone, writes back the values it was given when
    the model is a listed one. *)
Lemma sidebar_keeps_listed (c : Settings) :
  In (model c) MODEL_OPTIONS -> sidebar_settings no_inputs c = c.
Proof.
  intros H. destruct c as [m t k]. cbn [model] in H.
  unfold sidebar_settings, selectbox, slider, slider_int, float_, int_.
  cbn [no_inputs sb_model sb_temperature sb_max_tokens
       model temperature max_tokens].
  now rewrite (listed_model_index m H).
Qed.

Section Navigation.

Variables (secrets : Secrets) (env : option string).
Variable invoke : Request -> Outcome string.
Variable key : string.
Hypothesis key_found : groq_api_key secrets env = Return (Some key).
Hypothesis key_truthy : truthy key = true.

(** Continue stores what the setup widgets hold before the chat page opens. *)
Lemma continue_persists (w : Inputs) (st : Store) :
  page (init_session st) = "setup" ->
  init_session
    (store_after (interact secrets env invoke (press Continue w) st)) =
  {| page := "chat";
     settings := setup_values w (settings (init_session st));
     messages := messages (init_session st) |}.
Proof.
  intros P.
  rewrite (interact_session secrets env invoke key key_found key_truthy).
  cbv zeta. rewrite router_fresh, P. simpl String.eqb. cbv iota.
  rewrite setup_page_run. cbv zeta.
  change (btn_back (press Continue w)) with false.
  change (btn_save (press Continue w)) with false.
  change (btn_continue (press Continue w)) with true.
  cbv iota. cbn [fst snd session].
  change (session (fresh (init_session st))) with (init_session st).
  unfold settled. cbn [page settings messages]. simpl String.eqb. cbv iota.
  change (setup_values (press Continue w)) with (setup_values w).
  rewrite sidebar_keeps_listed; [reflexivity |].
  apply selectbox_in.
Qed.

(** C5.  The page state machine follows the transition table of the
    specification: from a session on one of the three pages, after any
    sequence of navigation clicks (whatever the selectors and sliders hold
    meanwhile), the current page is the target of the last click that the
    table allows on the page it was made on, and the transcript is the one
    the session started with.  The run is a function, so the outcome is
    determined and defined for every sequence.  Continue, on the setup page,
    stores the values of the setup widgets on its way to the chat page. *)
Theorem navigation_follows_table (l : list (Nav * Inputs)) (st : Store) :
  valid_page (page (init_session st)) ->
  let st' :=
    run_session secrets env invoke
      (map (fun aw => press (fst aw) (snd aw)) l) st in
  page (init_session st') =
    spec_navigate (page (init_session st)) (map fst l) /\
  messages (init_session st') = messages (init_session st) /\
  forall (w : Inputs) (st0 : Store),
    page (init_session st0) = "setup" ->
    init_session
      (store_after (interact secrets env invoke (press Continue w) st0)) =
    {| page := "chat";
       settings := setup_values w (settings (init_session st0));
       messages := messages (init_session st0) |}.
Proof.
  intros V. cbv zeta.
  split; [| split; [| exact continue_persists]];
    revert st V; induction l as [| [a w] l IH]; intros st V;
    try reflexivity;
    cbn [map run_session spec_navigate fst snd];
    destruct (press_step secrets env invoke key key_found key_truthy
                a w st V) as [Hp Hm];
    assert (V' : valid_page
              (page (init_session
                 (store_after
                    (interact secrets env invoke (press a w) st)))))
      by (rewrite Hp; apply spec_transition_valid, V);
    rewrite (IH _ V'), ?Hp, ?Hm;
    destruct (spec_transition (page (init_session st)) a); reflexivity.
Qed.

End Navigation.

(** A session that starts empty and clicks Get Started, Continue, Home ends
    on the landing page with its transcript still empty. *)
Lemma navigation_follows_table_witness :
  let st' :=
    run_session (SecretsFile (Some "gsk_test")) None (stub_answers "ok")
      (map (fun aw => press (fst aw) (snd aw))
         [(GetStarted, no_inputs); (Continue, no_inputs); (Home, no_inputs)])
      empty_store in
  page (init_session st') = "landing" /\ messages (init_session st') = [].
Proof.
  pose proof (navigation_follows_table (SecretsFile (Some "gsk_test")) None
                (stub_answers "ok") "gsk_test" eq_refl eq_refl
                [(GetStarted, no_inputs); (Continue, no_inputs);
                 (Home, no_inputs)]
                empty_store (or_introl eq_refl)) as (Hp & Hm & _).
  exact (conj Hp Hm).
Defined.

(** ** Slider defaults *)

Lemma slider_bounds (v : float) (pick : option float) :
  in_range 0 1 v = true -> in_range 0 1 (slider 0 1 v pick) = true.
Proof.
  intros H. unfold slider. destruct pick as [u |]; [| exact H].
  destruct (in_range 0 1 u) eqn:E; assumption.
Qed.

Lemma slider_int_bounds (v : Z) (pick : option Z) :
  (64 <= v <= 2048)%Z -> (64 <= slider_int 64 2048 v pick <= 2048)%Z.
Proof.
  intros H. unfold slider_int. destruct pick as [u |]; [| exact H].
  destruct ((64 <=? u)%Z && (u <=? 2048)%Z) eqn:E; [| exact H].
  apply andb_prop in E. destruct E as [A B].
  apply Z.leb_le in A, B. lia.
Qed.

Lemma setup_values_bounds (i : Inputs) (c : Settings) :
  in_bounds c -> in_bounds (setup_values i c).
Proof.
  intros [T K]. split; cbn [setup_values temperature max_tokens];
    unfold float_, int_; [now apply slider_bounds | now apply slider_int_bounds].
Qed.

Lemma sidebar_settings_bounds (i : Inputs) (c : Settings) :
  in_bounds c -> in_bounds (sidebar_settings i c).
Proof.
  intros [T K]. split; cbn [sidebar_settings temperature max_tokens];
    unfold float_, int_; [now apply slider_bounds | now apply slider_int_bounds].
Qed.

Lemma router_bounds key invoke (i : Inputs) (w : World) :
  in_bounds (settings (session w)) ->
  in_bounds (settings (session (snd (router key invoke i w)))).
Proof.
  intros B. rewrite router_run.
  destruct (String.eqb (page (session w)) "landing").
  - rewrite landing_page_run. cbv zeta.
    destruct (btn_get_started i), (btn_landing_setup i), (btn_landing_chat i);
      exact B.
  - destruct (String.eqb (page (session w)) "setup").
    + rewrite setup_page_run. cbv zeta.
      destruct (btn_back i), (btn_save i), (btn_continue i);
        cbn [snd session settings];
        first [ exact B | now apply setup_values_bounds ].
    + rewrite chat_page_settings. now apply sidebar_settings_bounds.
Qed.

Lemma settled_bounds (s : SessionState) :
  in_bounds (settings s) -> in_bounds (settings (settled s)).
Proof.
  intros B. unfold settled.
  destruct (String.eqb (page s) "landing"), (String.eqb (page s) "setup");
    first [ exact B | now apply sidebar_settings_bounds ].
Qed.

Lemma interact_bounds secrets env invoke (i : Inputs) (st : Store) :
  in_bounds (settings (init_session st)) ->
  in_bounds
    (settings (init_session (store_after (interact secrets env invoke i st)))).
Proof.
  intros B.
  destruct (key_cases secrets env invoke) as [(key & F & K) | N].
  - rewrite (interact_session secrets env invoke key F K). cbv zeta.
    pose proof (router_bounds key invoke i (fresh (init_session st)) B) as M.
    destruct (router key invoke i (fresh (init_session st)))
      as [[u | [|]] w]; cbn [fst snd] in *; auto.
    now apply settled_bounds.
  - destruct (N i st) as (NS & NR & _). rewrite ?NS, ?NR. exact B.
Qed.

(** In every session the script starts, both sliders are always created with
    a default inside their bounds. *)
Lemma run_session_bounds secrets env invoke (l : list Inputs) :
  in_bounds
    (settings (init_session (run_session secrets env invoke l empty_store))).
Proof.
  assert (G : forall st,
             in_bounds (settings (init_session st)) ->
             in_bounds
               (settings
                  (init_session (run_session secrets env invoke l st)))).
  { induction l as [| i l IH]; intros st B; simpl; [exact B |].
    apply IH, interact_bounds, B. }
  apply G. split; [reflexivity | simpl; lia].
Qed.

(** ** Background images *)

Ltac n_arith := zify; Z.to_euclidean_division_equations; lia.

Lemma below_64 (P : N -> bool) :
  forallb P (map N.of_nat (seq 0 64)) = true ->
  forall n, (n < 64)%N -> P n = true.
Proof.
  intros H n Hn. rewrite forallb_forall in H. apply H.
  rewrite <- (Nnat.N2Nat.id n). apply in_map, in_seq. lia.
Qed.

Lemma unsextet_sextet (n : N) :
  (n < 64)%N -> Assets.unsextet (Assets.sextet n) = Some n.
Proof.
  intros H.
  pose proof (below_64
    (fun k => match Assets.unsextet (Assets.sextet k) with
              | Some m => N.eqb m k
              | None => false
              end) eq_refl n H) as C.
  cbv beta in C. destruct (Assets.unsextet (Assets.sextet n)) as [m |];
    [| discriminate].
  apply N.eqb_eq in C. now subst m.
Qed.

Lemma sextet_not_padding (n : N) :
  (n < 64)%N -> Ascii.eqb (Assets.sextet n) "=" = false.
Proof.
  intros H.
  pose proof (below_64 (fun k => negb (Ascii.eqb (Assets.sextet k) "="))
                eq_refl n H) as C.
  cbv beta in C. now apply negb_true_iff in C.
Qed.

Lemma sextet_uri_char (n : N) :
  (n < 64)%N -> Assets.uri_char (Assets.sextet n) = true.
Proof.
  exact (below_64 (fun k => Assets.uri_char (Assets.sextet k)) eq_refl n).
Qed.

(** Induction over a list three elements at a time, as the encoder reads
    it. *)
Lemma list_ind3 (A : Type) (P : list A -> Prop) :
  P [] -> (forall a, P [a]) -> (forall a b, P [a; b]) ->
  (forall a b c l, P l -> P (a :: b :: c :: l)) ->
  forall l, P l.
Proof.
  intros H0 H1 H2 H3 l.
  assert (G : forall n l, (length l <= n)%nat -> P l).
  { induction n as [| n IH]; intros k Hk.
    - destruct k; [exact H0 | simpl in Hk; lia].
    - destruct k as [| a [| b [| c k]]]; auto.
      apply H3, IH. simpl in Hk. lia. }
  exact (G (length l) l (le_n _)).
Qed.

Lemma b64decode_b64encode (data : list Byte.byte) :
  Assets.b64decode (Assets.b64encode data) = Some data.
Proof.
  induction data as [| a | a b | a b c rest IH] using list_ind3.
  - reflexivity.
  - pose proof (Byte.to_N_bounded a) as Ha.
    cbn [Assets.b64encode Assets.b64decode].
    rewrite !unsextet_sextet by n_arith.
    replace (Byte.to_N a / 4 * 4 + Byte.to_N a mod 4 * 16 / 16)%N
      with (Byte.to_N a) by n_arith.
    rewrite Byte.of_to_N. reflexivity.
  - pose proof (Byte.to_N_bounded a) as Ha.
    pose proof (Byte.to_N_bounded b) as Hb.
    cbn [Assets.b64encode Assets.b64decode].
    rewrite !unsextet_sextet by n_arith.
    rewrite sextet_not_padding by n_arith.
    replace (Byte.to_N a / 4 * 4
             + (Byte.to_N a mod 4 * 16 + Byte.to_N b / 16) / 16)%N
      with (Byte.to_N a) by n_arith.
    replace ((Byte.to_N a mod 4 * 16 + Byte.to_N b / 16) mod 16 * 16
             + Byte.to_N b mod 16 * 4 / 4)%N
      with (Byte.to_N b) by n_arith.
    rewrite !Byte.of_to_N. reflexivity.
  - pose proof (Byte.to_N_bounded a) as Ha.
    pose proof (Byte.to_N_bounded b) as Hb.
    pose proof (Byte.to_N_bounded c) as Hc.
    cbn [Assets.b64encode Assets.b64decode].
    rewrite !unsextet_sextet by n_arith.
    rewrite !sextet_not_padding by n_arith.
    rewrite IH.
    replace (Byte.to_N a / 4 * 4
             + (Byte.to_N a mod 4 * 16 + Byte.to_N b / 16) / 16)%N
      with (Byte.to_N a) by n_arith.
    replace ((Byte.to_N a mod 4 * 16 + Byte.to_N b / 16) mod 16 * 16
             + (Byte.to_N b mod 16 * 4 + Byte.to_N c / 64) / 4)%N
      with (Byte.to_N b) by n_arith.
    replace ((Byte.to_N b mod 16 * 4 + Byte.to_N c / 64) mod 4 * 64
             + Byte.to_N c mod 64)%N
      with (Byte.to_N c) by n_arith.
    rewrite !Byte.of_to_N. reflexivity.
Qed.

Lemma b64encode_chars (data : list Byte.byte) :
  forallb Assets.uri_char (list_ascii_of_string (Assets.b64encode data))
  = true.
Proof.
  induction data as [| a | a b | a b c rest IH] using list_ind3.
  - reflexivity.
  - pose proof (Byte.to_N_bounded a) as Ha.
    cbn [Assets.b64encode list_ascii_of_string forallb].
    rewrite !sextet_uri_char by n_arith. reflexivity.
  - pose proof (Byte.to_N_bounded a) as Ha.
    pose proof (Byte.to_N_bounded b) as Hb.
    cbn [Assets.b64encode list_ascii_of_string forallb].
    rewrite !sextet_uri_char by n_arith. reflexivity.
  - pose proof (Byte.to_N_bounded a) as Ha.
    pose proof (Byte.to_N_bounded b) as Hb.
    pose proof (Byte.to_N_bounded c) as Hc.
    cbn [Assets.b64encode list_ascii_of_string forallb].
    rewrite !sextet_uri_char by n_arith. rewrite IH. reflexivity.
Qed.

Lemma mapping_get_cases dir (page_name : string) :
  Assets.mapping_get dir page_name = Assets.asset dir "1.png" ".png" \/
  Assets.mapping_get dir page_name = Assets.asset dir "2.png" ".png" \/
  Assets.mapping_get dir page_name = Assets.asset dir "3.png" ".png".
Proof.
  unfold Assets.mapping_get.
  destruct (String.eqb page_name "landing"); auto.
  destruct (String.eqb page_name "setup"); auto.
  destruct (String.eqb page_name "chat"); auto.
Qed.

Lemma mapping_get_png read dir (page_name : string) :
  Assets.img_to_data_uri read (Assets.mapping_get dir page_name) =
  match read (Assets.path_text (Assets.mapping_get dir page_name)) with
  | None => ""
  | Some data => "data:image/png;base64," ++ Assets.b64encode data
  end.
Proof.
  unfold Assets.img_to_data_uri.
  destruct (mapping_get_cases dir page_name) as [E | [E | E]]; rewrite E;
    cbn [Assets.asset Assets.path_text Assets.suffix];
    destruct (read _); reflexivity.
Qed.

Lemma set_page_background_run read dir (page_name : string) :
  Assets.set_page_background read dir page_name =
  match read (Assets.path_text (Assets.mapping_get dir page_name)) with
  | None =>
      [ Assets.Warning
          ("Background image missing: "
           ++ Assets.path_text (Assets.mapping_get dir page_name)
           ++ ". Put it inside assets/.");
        Assets.Style "" ]
  | Some data =>
      [ Assets.Style ("data:image/png;base64," ++ Assets.b64encode data) ]
  end.
Proof.
  unfold Assets.set_page_background. cbv zeta.
  rewrite mapping_get_png.
  destruct (read _); reflexivity.
Qed.

(** X1.  [set_page_background] warns exactly when the image of the page is
    missing, naming the path, and still draws the style block, with an empty
    URL.  When the file is there, even an empty one, it draws the style block
    alone, with the PNG data URI of the bytes.  A page name outside the three
    gets the image of the landing page. *)
Theorem background_warns_iff_missing read dir (page_name : string) :
  let img_path := Assets.mapping_get dir page_name in
  match read (Assets.path_text img_path) with
  | None =>
      Assets.set_page_background read dir page_name =
      [ Assets.Warning
          ("Background image missing: " ++ Assets.path_text img_path
           ++ ". Put it inside assets/.");
        Assets.Style "" ]
  | Some data =>
      Assets.set_page_background read dir page_name =
      [ Assets.Style ("data:image/png;base64," ++ Assets.b64encode data) ]
  end /\
  (page_name <> "landing" -> page_name <> "setup" -> page_name <> "chat" ->
   img_path = Assets.mapping_get dir "landing").
Proof.
  cbv zeta. split.
  - rewrite set_page_background_run.
    destruct (read _); reflexivity.
  - intros NL NS NC. unfold Assets.mapping_get.
    apply String.eqb_neq in NL, NS, NC. now rewrite NL, NS, NC.
Qed.

(** A page value outside the three names draws the first image. *)
Lemma background_warns_iff_missing_witness :
  Assets.mapping_get "/app/assets" "profile" =
  Assets.mapping_get "/app/assets" "landing".
Proof.
  apply (background_warns_iff_missing
           (Assets.all_present Assets.PNG_SIGNATURE) "/app/assets" "profile");
    discriminate.
Defined.

(** X2.  For a path whose suffix is ASCII text, the data URI of a file that
    exists is ["data:image/"], the suffix in lower case without its dot (the
    case made for ["png"] changes nothing), [";base64,"], and a payload that
    decodes back to exactly the bytes of the file. *)
Theorem data_uri_decodes_to_file
    read (img_path : Assets.Path) (data : list Byte.byte) :
  Assets.is_ascii (Assets.suffix img_path) = true ->
  read (Assets.path_text img_path) = Some data ->
  exists payload : string,
    Assets.img_to_data_uri read img_path =
      "data:image/" ++ Assets.remove_dots (Assets.lower (Assets.suffix img_path))
      ++ ";base64," ++ payload /\
    Assets.b64decode payload = Some data.
Proof.
  intros _ H. exists (Assets.b64encode data). split.
  - unfold Assets.img_to_data_uri. rewrite H. cbv zeta.
    destruct (String.eqb_spec
                (Assets.remove_dots (Assets.lower (Assets.suffix img_path)))
                "png") as [E | N]; [rewrite E |]; reflexivity.
  - apply b64decode_b64encode.
Qed.

(** A file named [.PNG] that holds the PNG signature. *)
Lemma data_uri_decodes_to_file_witness :
  exists payload : string,
    Assets.img_to_data_uri (Assets.all_present Assets.PNG_SIGNATURE)
      {| Assets.path_text := "/app/assets/1.PNG"; Assets.suffix := ".PNG" |}
    = "data:image/png;base64," ++ payload /\
    Assets.b64decode payload = Some Assets.PNG_SIGNATURE.
Proof.
  exact (data_uri_decodes_to_file (Assets.all_present Assets.PNG_SIGNATURE)
           {| Assets.path_text := "/app/assets/1.PNG";
              Assets.suffix := ".PNG" |}
           Assets.PNG_SIGNATURE eq_refl eq_refl).
Defined.

Lemma forallb_chars_app (P : ascii -> bool) (a b : string) :
  forallb P (list_ascii_of_string (a ++ b)) =
  forallb P (list_ascii_of_string a) && forallb P (list_ascii_of_string b).
Proof.
  induction a as [| c a IH]; simpl; [reflexivity |].
  rewrite IH. now rewrite andb_assoc.
Qed.

Lemma background_chars_helper read dir (page_name : string) :
  forall u,
    In (Assets.Style u) (Assets.set_page_background read dir page_name) ->
    forallb Assets.uri_char (list_ascii_of_string u) = true.
Proof.
  intros u. rewrite set_page_background_run.
  destruct (read _) as [data |].
  - intros [E | []].
    assert (U : u = "data:image/png;base64," ++ Assets.b64encode data)
      by (injection E; intros U; symmetry; exact U).
    rewrite U.
    rewrite (forallb_chars_app Assets.uri_char "data:image/png;base64,").
    now rewrite b64encode_chars.
  - intros [E | [E | []]]; [discriminate E |]. now injection E as <-.
Qed.

(** X3.  Whatever the image files hold, the URL that [set_page_background]
    puts into the style block is made of letters, digits and [+ / = : ; ,]
    only; in particular it holds no double quote, so the bytes of an image
    cannot end the quoted URL of the style sheet. *)
Theorem background_url_is_plain read dir (page_name u : string) :
  In (Assets.Style u) (Assets.set_page_background read dir page_name) ->
  forallb Assets.uri_char (list_ascii_of_string u) = true /\
  ~ In (ascii_of_nat 34) (list_ascii_of_string u).
Proof.
  intros H.
  assert (C : forallb Assets.uri_char (list_ascii_of_string u) = true).
  { pose proof (background_chars_helper read dir page_name) as G.
    exact (G u H). }
  split; [exact C |].
  intros Q. rewrite forallb_forall in C. specialize (C _ Q). discriminate C.
Qed.

(** A deployment with all images in place, on the chat page. *)
Lemma background_url_is_plain_witness :
  ~ In (ascii_of_nat 34)
      (list_ascii_of_string "data:image/png;base64,iVBORw0KGgo=").
Proof.
  exact (proj2
           (background_url_is_plain (Assets.all_present Assets.PNG_SIGNATURE)
              "/app/assets" "chat" "data:image/png;base64,iVBORw0KGgo="
              (or_introl eq_refl))).
Defined.

(** ** Interactions, case by case *)

Lemma router_idle key invoke (s : SessionState) :
  router key invoke no_inputs (fresh s) =
  (inl tt, {| session := settled s; screen := idle_screen s; sent := [] |}).
Proof.
  rewrite router_fresh. unfold settled, idle_screen.
  destruct (String.eqb (page s) "landing").
  - rewrite landing_page_run. destruct s; reflexivity.
  - destruct (String.eqb (page s) "setup").
    + rewrite setup_page_run. destruct s; reflexivity.
    + rewrite chat_page_idle by reflexivity. reflexivity.
Qed.

Lemma interact_keyed secrets env invoke key (i : Inputs) (st : Store) :
  groq_api_key secrets env = Return (Some key) -> truthy key = true ->
  interact secrets env invoke i st =
  let r := router key invoke i (fresh (init_session st)) in
  match fst r with
  | inr RerunRequested =>
      {| store_after := store_of (settled (session (snd r)));
         shown := idle_screen (session (snd r));
         requests := sent (snd r);
         stopped_by := None;
         uncaught := None |}
  | _ => result_of r
  end.
Proof.
  intros F K. unfold interact. rewrite (script_keyed secrets env invoke key F K).
  cbv zeta.
  destruct (router key invoke i (fresh (init_session st))) as [[u | [|]] w];
    try reflexivity.
  change (stopped_by (result_of (inr RerunRequested, w)))
    with (Some RerunRequested).
  change (store_after (result_of (inr RerunRequested, w)))
    with (store_of (session w)).
  change (requests (result_of (inr RerunRequested, w))) with (sent w).
  cbv iota.
  rewrite (script_keyed secrets env invoke key F K).
  rewrite init_session_store_of, router_idle.
  cbn [fst snd result_of session screen sent store_after shown requests
       stopped_by].
  now rewrite app_nil_r.
Qed.

(** What a run does to the transcript: nothing, or it empties it (Clear chat
    on the chat page), or it appends a submitted non-empty question, alone or
    with its answer. *)
Lemma router_messages key invoke (i : Inputs) (w : World) :
  let old := messages (session w) in
  let new := messages (session (snd (router key invoke i w))) in
  new = old \/
  (new = [] /\ btn_clear i = true /\ on_chat (page (session w)) = true) \/
  (exists q,
     chat_input i = Some q /\ truthy q = true /\
     (new = (old ++ [ {| role := "user"; content := q |} ])%list \/
      exists answer,
        new = (old ++ [ {| role := "user"; content := q |};
                        {| role := "assistant"; content := answer |} ])%list)).
Proof.
  cbv zeta. rewrite router_run.
  destruct (String.eqb (page (session w)) "landing") eqn:EL.
  { rewrite landing_page_run. cbv zeta.
    destruct (btn_get_started i), (btn_landing_setup i), (btn_landing_chat i);
      left; reflexivity. }
  destruct (String.eqb (page (session w)) "setup") eqn:ES.
  { rewrite setup_page_run. cbv zeta.
    destruct (btn_back i), (btn_save i), (btn_continue i); left; reflexivity. }
  chat_cases key invoke i; cbn [snd session messages]; auto.
  - right. left. unfold on_chat. rewrite EL, ES. auto.
  - right. right. exists q. repeat split; auto.
    right. eexists. rewrite <- app_assoc. reflexivity.
  - right. right. exists q. repeat split; auto.
Qed.

Lemma interact_messages secrets env invoke (i : Inputs) (st : Store) :
  let old := messages (init_session st) in
  let new :=
    messages (init_session (store_after (interact secrets env invoke i st)))
  in
  new = old \/
  (new = [] /\ btn_clear i = true /\ on_chat (page (init_session st)) = true)
  \/
  (exists q,
     chat_input i = Some q /\ truthy q = true /\
     (new = (old ++ [ {| role := "user"; content := q |} ])%list \/
      exists answer,
        new = (old ++ [ {| role := "user"; content := q |};
                        {| role := "assistant"; content := answer |} ])%list)).
Proof.
  cbv zeta.
  destruct (key_cases secrets env invoke) as [(key & F & K) | N].
  - rewrite (interact_session secrets env invoke key F K). cbv zeta.
    pose proof (router_messages key invoke i (fresh (init_session st))) as M.
    cbv zeta in M.
    change (session (fresh (init_session st))) with (init_session st) in M.
    destruct (router key invoke i (fresh (init_session st)))
      as [[u | [|]] w]; cbn [fst snd] in *; rewrite ?settled_messages;
      exact M.
  - destruct (N i st) as (NS & NR & _). rewrite ?NS, ?NR. left. reflexivity.
Qed.

(** What a run sends: nothing, unless it is a run of the chat page with no
    sidebar button clicked and a non-empty chat input; then the one request
    for that question, built from the settings the sidebar holds. *)
Lemma router_sent_exact key invoke (i : Inputs) (s : SessionState) r :
  In r (sent (snd (router key invoke i (fresh s)))) ->
  on_chat (page s) = true /\
  btn_clear i = false /\ btn_home i = false /\ btn_chat_setup i = false /\
  fst (router key invoke i (fresh s)) = inl tt /\
  exists q,
    chat_input i = Some q /\ truthy q = true /\
    sent (snd (router key invoke i (fresh s))) =
    [ request_for key (sidebar_settings i (settings s)) q ].
Proof.
  rewrite router_fresh.
  destruct (String.eqb (page s) "landing") eqn:EL.
  { rewrite landing_page_run. cbv zeta.
    destruct (btn_get_started i), (btn_landing_setup i), (btn_landing_chat i);
      cbn [snd sent fresh]; intros H; destruct H. }
  destruct (String.eqb (page s) "setup") eqn:ES.
  { rewrite setup_page_run. cbv zeta.
    destruct (btn_back i), (btn_save i), (btn_continue i);
      cbn [snd sent fresh]; intros H; destruct H. }
  assert (C : on_chat (page s) = true) by (unfold on_chat; now rewrite EL, ES).
  chat_cases key invoke i; cbn [fst snd sent fresh session app];
    intros H; try (destruct H; fail); repeat split; auto; exists q; auto.
Qed.

Lemma interact_requests_exact secrets env invoke (i : Inputs) (st : Store) r :
  In r (requests (interact secrets env invoke i st)) ->
  exists key q,
    groq_api_key secrets env = Return (Some key) /\ truthy key = true /\
    on_chat (page (init_session st)) = true /\
    btn_clear i = false /\ btn_home i = false /\ btn_chat_setup i = false /\
    chat_input i = Some q /\ truthy q = true /\
    requests (interact secrets env invoke i st) =
    [ request_for key (sidebar_settings i (settings (init_session st))) q ].
Proof.
  destruct (key_cases secrets env invoke) as [(key & F & K) | N].
  - rewrite (interact_keyed secrets env invoke key i st F K). cbv zeta.
    pose proof (router_sent_exact key invoke i (init_session st) r) as M.
    destruct (router key invoke i (fresh (init_session st)))
      as [[[] | [|]] w];
      cbn [fst snd result_of requests] in *; intros H;
      destruct (M H) as (C & Hc & Hh & Hs & R & q & Hq & Ht & E);
      try discriminate R.
    exists key, q. repeat split; auto.
  - destruct (N i st) as (NS & NR & _). rewrite ?NS, ?NR. intros [].
Qed.

Lemma on_chat_route (p : string) :
  on_chat p = true ->
  String.eqb p "landing" = false /\ String.eqb p "setup" = false.
Proof.
  unfold on_chat. intros H. apply andb_prop in H. destruct H as [A B].
  apply negb_true_iff in A, B. auto.
Qed.

Lemma bubbles_drawn_app (l1 l2 : list UI) :
  bubbles_drawn (l1 ++ l2) = (bubbles_drawn l1 ++ bubbles_drawn l2)%list.
Proof.
  induction l1 as [| u l1 IH]; simpl; [reflexivity |].
  destruct u; simpl; rewrite IH; reflexivity.
Qed.

Lemma bubbles_drawn_bubbles (l : list Message) :
  bubbles_drawn (map bubble l) = l.
Proof.
  induction l as [| [r c] l IH]; simpl; [reflexivity |]. now rewrite IH.
Qed.

Lemma idle_screen_pages (s : SessionState) :
  pages_drawn (idle_screen s) =
  [ if String.eqb (page s) "landing" then "landing"
    else if String.eqb (page s) "setup" then "setup"
    else "chat" ].
Proof.
  unfold idle_screen.
  destruct (String.eqb (page s) "landing"); [reflexivity |].
  destruct (String.eqb (page s) "setup"); [reflexivity |].
  simpl. now rewrite pages_drawn_bubbles.
Qed.

Lemma idle_screen_bubbles (s : SessionState) :
  bubbles_drawn (idle_screen s) = if on_chat (page s) then messages s else [].
Proof.
  unfold idle_screen, on_chat.
  destruct (String.eqb (page s) "landing"); [reflexivity |].
  destruct (String.eqb (page s) "setup"); [reflexivity |].
  simpl. apply bubbles_drawn_bubbles.
Qed.

(** A run that reaches its end leaves the page field alone, has drawn that
    page, and has drawn as bubbles the transcript it leaves, if it is the
    chat page. *)
Lemma router_completed key invoke (i : Inputs) (s : SessionState) :
  fst (router key invoke i (fresh s)) = inl tt ->
  let w := snd (router key invoke i (fresh s)) in
  page (session w) = page s /\
  pages_drawn (screen w) =
    [ if String.eqb (page s) "landing" then "landing"
      else if String.eqb (page s) "setup" then "setup"
      else "chat" ] /\
  bubbles_drawn (screen w) =
    if on_chat (page s) then messages (session w) else [].
Proof.
  cbv zeta. rewrite router_fresh. unfold on_chat.
  destruct (String.eqb (page s) "landing") eqn:EL.
  { rewrite landing_page_run. cbv zeta.
    destruct (btn_get_started i), (btn_landing_setup i), (btn_landing_chat i);
      cbn [fst snd session screen fresh app page]; try discriminate.
    intros _. repeat split. }
  destruct (String.eqb (page s) "setup") eqn:ES.
  { rewrite setup_page_run. cbv zeta.
    destruct (btn_back i), (btn_save i), (btn_continue i);
      cbn [fst snd session screen fresh app page]; try discriminate;
      intros _; repeat split. }
  cbn [negb andb].
  chat_cases key invoke i;
    cbn [fst snd session screen fresh app page messages]; try discriminate;
    intros _; repeat split;
    cbn [pages_drawn bubbles_drawn];
    rewrite ?pages_drawn_app, ?bubbles_drawn_app, ?pages_drawn_bubbles,
      ?bubbles_drawn_bubbles;
    cbn [pages_drawn bubbles_drawn app]; rewrite ?app_nil_r; reflexivity.
Qed.

Lemma settled_settings_listed (s : SessionState) :
  In (model (settings s)) MODEL_OPTIONS -> settings (settled s) = settings s.
Proof.
  intros H. unfold settled.
  destruct (String.eqb (page s) "landing"), (String.eqb (page s) "setup");
    try reflexivity.
  apply sidebar_keeps_listed, H.
Qed.

Lemma setup_keeps_listed (c : Settings) :
  In (model c) MODEL_OPTIONS -> setup_values no_inputs c = c.
Proof.
  intros H. destruct c as [m t k]. cbn [model] in H.
  unfold setup_values, selectbox, slider, slider_int, float_, int_.
  cbn [no_inputs sel_model sld_temperature sld_max_tokens
       model temperature max_tokens].
  now rewrite (listed_model_index m H).
Qed.

(** ** The transcript *)

(** X5.  An interaction never rewrites the transcript: it keeps it, extends
    it at the end by at most two messages, or, when Clear chat is clicked
    on the chat page, empties it.  This holds with or without a credential. *)
Theorem transcript_append_only secrets env invoke (i : Inputs) (st : Store) :
  let old := messages (init_session st) in
  let new :=
    messages (init_session (store_after (interact secrets env invoke i st)))
  in
  (exists added, new = (old ++ added)%list /\ (length added <= 2)%nat) \/
  (new = [] /\ btn_clear i = true /\ on_chat (page (init_session st)) = true).
Proof.
  cbv zeta.
  destruct (interact_messages secrets env invoke i st)
    as [E | [E | (q & _ & _ & [E | [a E]])]]; cbv zeta in E.
  - left. exists []. rewrite app_nil_r. auto.
  - right. exact E.
  - left. eexists. split; [exact E | simpl; lia].
  - left. eexists. split; [exact E | simpl; lia].
Qed.

Lemma interact_exchanges secrets env invoke (i : Inputs) (st : Store) :
  Exchanges (messages (init_session st)) ->
  Exchanges
    (messages (init_session (store_after (interact secrets env invoke i st)))).
Proof.
  intros H.
  destruct (interact_messages secrets env invoke i st)
    as [E | [(E & _) | (q & _ & T & [E | [a E]])]]; cbv zeta in E;
    rewrite E.
  - exact H.
  - constructor.
  - now apply Exchanges_unanswered.
  - now apply Exchanges_answered.
Qed.

Lemma snoc_cases (A : Type) (l : list A) :
  l = [] \/ exists l' x, l = (l' ++ [x])%list.
Proof.
  destruct (rev l) as [| x r] eqn:E.
  - left. apply (f_equal (@rev A)) in E. now rewrite rev_involutive in E.
  - right. exists (rev r), x.
    apply (f_equal (@rev A)) in E. now rewrite rev_involutive in E.
Qed.

(** In a sequence of exchanges every answer stands right after a non-empty
    question. *)
Lemma exchanges_answer_follows_question (l : list Message) :
  Exchanges l ->
  forall pre m post,
    l = (pre ++ m :: post)%list -> role m = "assistant" ->
    exists pre' q,
      pre = (pre' ++ [ {| role := "user"; content := q |} ])%list /\
      truthy q = true.
Proof.
  induction 1 as [| l q H IH T | l q a H IH T]; intros pre m post E R.
  - destruct pre; discriminate E.
  - destruct (snoc_cases _ post) as [-> | (post' & x & ->)].
    + apply app_inj_tail in E. destruct E as [_ <-]. discriminate R.
    + change (pre ++ m :: post' ++ [x])%list
        with (pre ++ (m :: post') ++ [x])%list in E.
      rewrite app_assoc in E. apply app_inj_tail in E. destruct E as [E _].
      exact (IH _ _ _ E R).
  - change (l ++ [ {| role := "user"; content := q |};
                   {| role := "assistant"; content := a |} ])%list
      with (l ++ [ {| role := "user"; content := q |} ]
              ++ [ {| role := "assistant"; content := a |} ])%list in E.
    rewrite app_assoc in E.
    destruct (snoc_cases _ post) as [-> | (post' & x & ->)].
    + apply app_inj_tail in E. destruct E as [<- _]. eauto.
    + change (pre ++ m :: post' ++ [x])%list
        with (pre ++ (m :: post') ++ [x])%list in E.
      rewrite (app_assoc pre) in E.
      apply app_inj_tail in E. destruct E as [E _].
      destruct (snoc_cases _ post') as [-> | (post2 & y & ->)].
      * apply app_inj_tail in E. destruct E as [_ <-]. discriminate R.
      * change (pre ++ m :: post2 ++ [y])%list
          with (pre ++ (m :: post2) ++ [y])%list in E.
        rewrite app_assoc in E. apply app_inj_tail in E.
        destruct E as [E _]. exact (IH _ _ _ E R).
Qed.

(** X6.  In every session the script starts, whatever the user does and
    whatever the provider returns, the transcript is a sequence of exchanges:
    each is a non-empty question of the user, followed by at most one answer
    of the assistant.  So every assistant message stands right after a
    non-empty user message: none is first, none follows another answer. *)
Theorem transcript_is_exchanges secrets env invoke (l : list Inputs) :
  let transcript :=
    messages (init_session (run_session secrets env invoke l empty_store)) in
  Exchanges transcript /\
  forall pre m post,
    transcript = (pre ++ m :: post)%list -> role m = "assistant" ->
    exists pre' q,
      pre = (pre' ++ [ {| role := "user"; content := q |} ])%list /\
      truthy q = true.
Proof.
  cbv zeta.
  assert (G : forall st,
             Exchanges (messages (init_session st)) ->
             Exchanges
               (messages
                  (init_session (run_session secrets env invoke l st)))).
  { induction l as [| i l IH]; intros st H; simpl; [exact H |].
    apply IH, interact_exchanges, H. }
  assert (E : Exchanges
                (messages
                   (init_session
                      (run_session secrets env invoke l empty_store))))
    by (apply G; constructor).
  split; [exact E | exact (exchanges_answer_follows_question _ E)].
Qed.

(** One answered question in a new session: the answer follows it. *)
Lemma transcript_is_exchanges_witness :
  exists pre' q,
    [ {| role := "user"; content := "hi" |} ] =
      (pre' ++ [ {| role := "user"; content := q |} ])%list /\
    truthy q = true.
Proof.
  exact (proj2
           (transcript_is_exchanges (SecretsFile (Some "gsk_test")) None
              (stub_answers "hello")
              [press LandingChat no_inputs; submit "hi"])
           [ {| role := "user"; content := "hi" |} ]
           {| role := "assistant"; content := "hello" |} []
           eq_refl eq_refl).
Defined.

(** ** Requests *)

Lemma submission_sends_one secrets env invoke key (i : Inputs) (st : Store) q :
  groq_api_key secrets env = Return (Some key) -> truthy key = true ->
  on_chat (page (init_session st)) = true ->
  submits i q ->
  requests (interact secrets env invoke i st) =
  [ request_for key (sidebar_settings i (settings (init_session st))) q ].
Proof.
  intros F K C S.
  rewrite (interact_keyed secrets env invoke key i st F K). cbv zeta.
  rewrite router_fresh.
  destruct (on_chat_route _ C) as [EL ES]. rewrite EL, ES.
  rewrite (chat_page_submit key invoke i q) by assumption. cbv zeta.
  destruct (invoke _); reflexivity.
Qed.

(** X7.  A request goes to the provider only from a run of the chat page in
    which no sidebar button was clicked and the chat input holds a non-empty
    text, and only with a credential; it is then the only request of the
    interaction, and it is built from the settings the sidebar holds in that
    same run.  Every such run sends it. *)
Theorem requests_only_for_submissions
    secrets env invoke (i : Inputs) (st : Store) :
  (forall r : Request,
     In r (requests (interact secrets env invoke i st)) ->
     exists key q,
       groq_api_key secrets env = Return (Some key) /\ truthy key = true /\
       on_chat (page (init_session st)) = true /\
       submits i q /\
       requests (interact secrets env invoke i st) =
       [ request_for key (sidebar_settings i (settings (init_session st))) q ])
  /\
  (forall key q,
     groq_api_key secrets env = Return (Some key) -> truthy key = true ->
     on_chat (page (init_session st)) = true ->
     submits i q ->
     requests (interact secrets env invoke i st) =
     [ request_for key (sidebar_settings i (settings (init_session st))) q ]).
Proof.
  split.
  - intros r H.
    destruct (interact_requests_exact _ _ _ _ _ _ H)
      as (key & q & F & K & C & Hc & Hh & Hs & Hq & Ht & E).
    exists key, q. repeat split; assumption.
  - intros key q. apply submission_sends_one.
Qed.

(** The question "hi" on the chat page of a session with the default
    settings: one request, for that question. *)
Lemma requests_only_for_submissions_witness :
  requests
    (interact (SecretsFile (Some "gsk_test")) None (stub_answers "ok") (submit "hi")
       (chat_store [])) =
  [ request_for "gsk_test" default_settings "hi" ].
Proof.
  exact (proj2
           (requests_only_for_submissions (SecretsFile (Some "gsk_test")) None
              (stub_answers "ok") (submit "hi") (chat_store []))
           "gsk_test" "hi" eq_refl eq_refl eq_refl
           (submit_submits "hi" eq_refl)).
Defined.

(** X8.  In every session the script starts, every request that is sent
    names a listed model, a temperature within [0.0, 1.0] and a token bound
    within [64, 2048], and carries the Groq base URL and a non-empty key. *)
Theorem requests_within_bounds
    secrets env invoke (l : list Inputs) (i : Inputs) (r : Request) :
  In r (requests
          (interact secrets env invoke i
             (run_session secrets env invoke l empty_store))) ->
  In (llm_model (req_llm r)) MODEL_OPTIONS /\
  in_range 0 1 (llm_temperature (req_llm r)) = true /\
  (64 <= llm_max_tokens (req_llm r) <= 2048)%Z /\
  llm_base_url (req_llm r) = GROQ_BASE_URL /\
  truthy (llm_api_key (req_llm r)) = true.
Proof.
  intros H.
  destruct (interact_requests_exact _ _ _ _ _ _ H)
    as (key & q & _ & K & _ & _ & _ & _ & _ & _ & E).
  rewrite E in H. destruct H as [<- | []].
  pose proof (sidebar_settings_bounds i _
                (run_session_bounds secrets env invoke l)) as [T M].
  cbn [request_for req_llm llm_model llm_temperature llm_max_tokens
       llm_base_url llm_api_key].
  repeat split; try assumption; try apply M.
  apply selectbox_in.
Qed.

(** The first question of a new session. *)
Lemma requests_within_bounds_witness :
  llm_model (req_llm (request_for "gsk_test" default_settings "hi")) =
    "llama-3.1-8b-instant" /\
  In (llm_model (req_llm (request_for "gsk_test" default_settings "hi")))
     MODEL_OPTIONS.
Proof.
  split; [reflexivity |].
  exact (proj1
           (requests_within_bounds (SecretsFile (Some "gsk_test")) None (stub_answers "ok")
              [press LandingChat no_inputs] (submit "hi")
              (request_for "gsk_test" default_settings "hi")
              (or_introl eq_refl))).
Defined.

(** ** What the screen shows *)

Lemma chat_errors_drawn_app (l1 l2 : list UI) :
  chat_errors_drawn (l1 ++ l2) =
  (chat_errors_drawn l1 ++ chat_errors_drawn l2)%list.
Proof.
  induction l1 as [| u l1 IH]; simpl; [reflexivity |].
  destruct u; simpl; rewrite IH; reflexivity.
Qed.

Lemma chat_errors_drawn_bubbles (l : list Message) :
  chat_errors_drawn (map bubble l) = [].
Proof. induction l; simpl; auto. Qed.

Lemma idle_screen_chat_errors (s : SessionState) :
  chat_errors_drawn (idle_screen s) = [].
Proof.
  unfold idle_screen.
  destruct (String.eqb (page s) "landing"); [reflexivity |].
  destruct (String.eqb (page s) "setup"); [reflexivity |].
  simpl. apply chat_errors_drawn_bubbles.
Qed.

(** A run draws an error inside a chat message only for the call it made and
    saw fail. *)
Lemma router_chat_errors key invoke (i : Inputs) (s : SessionState) :
  let w := snd (router key invoke i (fresh s)) in
  chat_errors_drawn (screen w) =
  match sent w with
  | [req] =>
      match invoke req with
      | Raise e =>
          [ ("assistant",
             if str_in "decommissioned" (exc_str e) then RETIRED_HINT
             else ("Error: " ++ exc_str e)%string) ]
      | Return _ => []
      end
  | _ => []
  end.
Proof.
  cbv zeta. rewrite router_fresh.
  destruct (String.eqb (page s) "landing").
  { rewrite landing_page_run. cbv zeta.
    destruct (btn_get_started i), (btn_landing_setup i), (btn_landing_chat i);
      reflexivity. }
  destruct (String.eqb (page s) "setup").
  { rewrite setup_page_run. cbv zeta.
    destruct (btn_back i), (btn_save i), (btn_continue i); reflexivity. }
  destruct (btn_clear i) eqn:Hc.
  { rewrite chat_page_clear by assumption. reflexivity. }
  destruct (btn_home i) eqn:Hh.
  { rewrite chat_page_home by assumption. reflexivity. }
  destruct (btn_chat_setup i) eqn:Hs.
  { rewrite chat_page_setup by assumption. reflexivity. }
  destruct (truthy_opt (chat_input i)) eqn:Hq.
  - destruct (chat_input i) as [q |] eqn:Hi; [| discriminate].
    rewrite (chat_page_submit key invoke i q) by (repeat split; assumption).
    cbv zeta.
    destruct (invoke (request_for key
                        (sidebar_settings i (settings (session (fresh s))))
                        q)) as [answer | e] eqn:E;
      cbn [snd screen sent fresh app chat_errors_drawn]; rewrite E;
      rewrite !chat_errors_drawn_app, chat_errors_drawn_bubbles;
      cbn [chat_errors_drawn app]; [reflexivity |].
    now rewrite retired_test.
  - rewrite chat_page_idle by assumption.
    cbn [snd screen sent fresh app chat_errors_drawn].
    apply chat_errors_drawn_bubbles.
Qed.

(** No page calls [st.stop()]. *)
Lemma router_never_stops key invoke (i : Inputs) (w : World) :
  fst (router key invoke i w) <> inr StopRequested.
Proof.
  rewrite router_run.
  destruct (String.eqb (page (session w)) "landing").
  { rewrite landing_page_run. cbv zeta.
    destruct (btn_get_started i), (btn_landing_setup i), (btn_landing_chat i);
      discriminate. }
  destruct (String.eqb (page (session w)) "setup").
  { rewrite setup_page_run. cbv zeta.
    destruct (btn_back i), (btn_save i), (btn_continue i); discriminate. }
  chat_cases key invoke i; discriminate.
Qed.

Section Screen.

Variables (secrets : Secrets) (env : option string).
Variable invoke : Request -> Outcome string.
Variable key : string.
Hypothesis key_found : groq_api_key secrets env = Return (Some key).
Hypothesis key_truthy : truthy key = true.

(** X4.  On the chat page, a run with no button clicked and nothing
    submitted, or an empty text submitted, adds no message, sends no request
    and shows no error: the screen is the page with the transcript, message
    by message, in order. *)
Theorem empty_submission_ignored (i : Inputs) (st : Store) :
  on_chat (page (init_session st)) = true ->
  btn_clear i = false -> btn_home i = false -> btn_chat_setup i = false ->
  truthy_opt (chat_input i) = false ->
  let r := interact secrets env invoke i st in
  messages (init_session (store_after r)) = messages (init_session st) /\
  page (init_session (store_after r)) = page (init_session st) /\
  requests r = [] /\
  errors_drawn (shown r) = [] /\
  shown r = Background "chat" :: map bubble (messages (init_session st)).
Proof.
  intros C Hc Hh Hs Hq. cbv zeta.
  rewrite (interact_keyed secrets env invoke key i st key_found key_truthy).
  cbv zeta. rewrite router_fresh.
  destruct (on_chat_route _ C) as [EL ES]. rewrite EL, ES.
  rewrite chat_page_idle by assumption.
  cbn [fst snd result_of store_after shown requests session screen sent
       fresh app].
  rewrite init_session_store_of. cbn [messages page errors_drawn].
  rewrite errors_drawn_bubbles. repeat split.
Qed.

(** X9.  After every interaction the screen shows exactly one page, and it
    is the page the session state names afterwards (the chat page for a value
    outside the three names): a navigation click is followed at once by the
    run that draws its target. *)
Theorem screen_shows_current_page (i : Inputs) (st : Store) :
  let r := interact secrets env invoke i st in
  let p := page (init_session (store_after r)) in
  pages_drawn (shown r) =
  [ if String.eqb p "landing" then "landing"
    else if String.eqb p "setup" then "setup"
    else "chat" ].
Proof.
  cbv zeta.
  rewrite (interact_keyed secrets env invoke key i st key_found key_truthy).
  cbv zeta.
  pose proof (router_completed key invoke i (init_session st)) as C.
  pose proof (router_never_stops key invoke i (fresh (init_session st))) as NS.
  cbv zeta in C.
  destruct (router key invoke i (fresh (init_session st)))
    as [[[] | [|]] w];
    cbn [fst snd result_of store_after shown] in *;
    rewrite init_session_store_of.
  - destruct (C eq_refl) as (P & D & _). now rewrite P, D.
  - rewrite settled_page. apply idle_screen_pages.
  - now destruct NS.
Qed.

(** X10.  After every interaction the chat messages drawn with text (role
    and text as the script passes them to [st.chat_message] and
    [st.markdown]) are, in order, exactly the messages the session state
    holds afterwards when the session is on the chat page, and there is none
    on the other pages.  The only other chat message the screen can hold is
    the assistant's container with the error box of a call that failed in
    this same interaction; it is not stored. *)
Theorem screen_shows_transcript (i : Inputs) (st : Store) :
  let r := interact secrets env invoke i st in
  let s' := init_session (store_after r) in
  bubbles_drawn (shown r) = (if on_chat (page s') then messages s' else []) /\
  chat_errors_drawn (shown r) =
    match requests r with
    | [req] =>
        match invoke req with
        | Raise e =>
            [ ("assistant",
               if str_in "decommissioned" (exc_str e) then RETIRED_HINT
               else ("Error: " ++ exc_str e)%string) ]
        | Return _ => []
        end
    | _ => []
    end.
Proof.
  cbv zeta.
  rewrite (interact_keyed secrets env invoke key i st key_found key_truthy).
  cbv zeta.
  pose proof (router_completed key invoke i (init_session st)) as C.
  pose proof (router_never_stops key invoke i (fresh (init_session st))) as NS.
  pose proof (router_chat_errors key invoke i (init_session st)) as CE.
  pose proof (fun r => router_sent_exact key invoke i (init_session st) r)
    as SE.
  cbv zeta in C, CE.
  destruct (router key invoke i (fresh (init_session st)))
    as [[[] | [|]] w];
    cbn [fst snd result_of store_after shown requests] in *;
    rewrite init_session_store_of.
  - destruct (C eq_refl) as (P & _ & B). rewrite P, B. split; [reflexivity |].
    exact CE.
  - rewrite settled_page, settled_messages. split.
    + apply idle_screen_bubbles.
    + rewrite idle_screen_chat_errors.
      destruct (sent w) as [| r0 l]; [reflexivity |].
      destruct (SE r0 (or_introl eq_refl)) as (_ & _ & _ & _ & R & _).
      discriminate R.
  - now destruct NS.
Qed.

End Screen.

(** An empty text submitted on a transcript of one exchange. *)
Lemma empty_submission_ignored_witness :
  requests
    (interact (SecretsFile (Some "gsk_test")) None (stub_answers "ok") (submit "")
       (chat_store [ {| role := "user"; content := "hi" |};
                     {| role := "assistant"; content := "hello" |} ])) = [].
Proof.
  pose proof (empty_submission_ignored (SecretsFile (Some "gsk_test")) None
                (stub_answers "ok") "gsk_test" eq_refl eq_refl (submit "")
                (chat_store [ {| role := "user"; content := "hi" |};
                              {| role := "assistant"; content := "hello" |} ])
                eq_refl eq_refl eq_refl eq_refl eq_refl)
    as (_ & _ & R & _).
  exact R.
Defined.

(** A click on Chat from the landing page of a new session: the screen is
    the chat page. *)
Lemma screen_shows_current_page_witness :
  pages_drawn
    (shown
       (interact (SecretsFile (Some "gsk_test")) None (stub_answers "ok")
          (press LandingChat no_inputs) empty_store)) = ["chat"].
Proof.
  exact (screen_shows_current_page (SecretsFile (Some "gsk_test")) None (stub_answers "ok")
           "gsk_test" eq_refl eq_refl (press LandingChat no_inputs)
           empty_store).
Defined.

(** A failed question: its text is drawn and stored; the assistant's
    container with the error is drawn and not stored. *)
Lemma screen_shows_transcript_witness :
  bubbles_drawn
    (shown
       (interact (SecretsFile (Some "gsk_test")) None
          (stub_fails connection_error) (submit "hi") (chat_store []))) =
    [ {| role := "user"; content := "hi" |} ] /\
  chat_errors_drawn
    (shown
       (interact (SecretsFile (Some "gsk_test")) None
          (stub_fails connection_error) (submit "hi") (chat_store []))) =
    [ ("assistant", "Error: Connection error.") ].
Proof.
  exact (screen_shows_transcript (SecretsFile (Some "gsk_test")) None
           (stub_fails connection_error) "gsk_test" eq_refl eq_refl
           (submit "hi") (chat_store [])).
Defined.

(** ** Where settings change *)

Section Edits.

Variables (secrets : Secrets) (env : option string).
Variable invoke : Request -> Outcome string.
Variable key : string.
Hypothesis key_found : groq_api_key secrets env = Return (Some key).
Hypothesis key_truthy : truthy key = true.

(** X11.  On the setup page the selector and the sliders are only a draft:
    unless Save Settings or Continue is clicked, the stored settings stay as
    they were, whatever the widgets hold, also when Back is clicked. *)
Theorem setup_edits_need_save (i : Inputs) (st : Store) :
  page (init_session st) = "setup" ->
  btn_save i = false -> btn_continue i = false ->
  let r := interact secrets env invoke i st in
  settings (init_session (store_after r)) = settings (init_session st) /\
  messages (init_session (store_after r)) = messages (init_session st) /\
  page (init_session (store_after r)) =
    if btn_back i then "landing" else "setup".
Proof.
  intros P Hs Hc. cbv zeta.
  rewrite (interact_session secrets env invoke key key_found key_truthy).
  cbv zeta. rewrite router_fresh, P. simpl String.eqb. cbv iota.
  rewrite setup_page_run. cbv zeta. rewrite Hs, Hc.
  change (session (fresh (init_session st))) with (init_session st).
  destruct (btn_back i); cbn [fst snd session]; [| now rewrite P].
  unfold settled. cbn [page]. simpl String.eqb. cbv iota. repeat split.
Qed.

(** X12.  On the chat page the sidebar writes through: after every
    interaction there, whether it clears, navigates, submits or does nothing,
    the stored settings are the values the sidebar held in that run. *)
Theorem sidebar_edits_apply_at_once (i : Inputs) (st : Store) :
  on_chat (page (init_session st)) = true ->
  settings (init_session (store_after (interact secrets env invoke i st))) =
  sidebar_settings i (settings (init_session st)).
Proof.
  intros C.
  rewrite (interact_session secrets env invoke key key_found key_truthy).
  cbv zeta. rewrite router_fresh.
  destruct (on_chat_route _ C) as [EL ES]. rewrite EL, ES.
  pose proof (chat_page_settings key invoke i (fresh (init_session st))) as S.
  change (session (fresh (init_session st))) with (init_session st) in S.
  destruct (chat_page key invoke i (fresh (init_session st)))
    as [[u | [|]] w]; cbn [fst snd] in *; try exact S.
  rewrite settled_settings_listed; [exact S |].
  rewrite S. apply selectbox_in.
Qed.

(** X13.  With a listed model stored, a navigation click made with every
    selector and slider untouched never changes the settings, on any page:
    the widgets of the page it opens show the stored values and write them
    back as they are. *)
Theorem navigation_keeps_settings (a : Nav) (st : Store) :
  In (model (settings (init_session st))) MODEL_OPTIONS ->
  settings
    (init_session
       (store_after (interact secrets env invoke (press a no_inputs) st))) =
  settings (init_session st).
Proof.
  intros L.
  rewrite (interact_session secrets env invoke key key_found key_truthy).
  cbv zeta. rewrite router_fresh.
  destruct (String.eqb (page (init_session st)) "landing").
  { rewrite landing_page_run.
    destruct a; cbn [fst snd session settings press btn_get_started
      btn_landing_setup btn_landing_chat fresh];
      try reflexivity;
      (rewrite settled_settings_listed; [reflexivity | exact L]). }
  destruct (String.eqb (page (init_session st)) "setup").
  { rewrite setup_page_run. cbv zeta.
    change (setup_values (press a no_inputs)) with (setup_values no_inputs).
    change (session (fresh (init_session st))) with (init_session st).
    rewrite (setup_keeps_listed _ L).
    destruct a; cbn [fst snd session settings press btn_back btn_save
      btn_continue fresh];
      try reflexivity;
      (rewrite settled_settings_listed; [reflexivity | exact L]). }
  pose proof (chat_page_settings key invoke (press a no_inputs)
                (fresh (init_session st))) as S.
  change (session (fresh (init_session st))) with (init_session st) in S.
  change (sidebar_settings (press a no_inputs))
    with (sidebar_settings no_inputs) in S.
  rewrite (sidebar_keeps_listed _ L) in S.
  destruct (chat_page key invoke (press a no_inputs)
              (fresh (init_session st)))
    as [[u | [|]] w]; cbn [fst snd] in *; try exact S.
  rewrite settled_settings_listed; [exact S |]. now rewrite S.
Qed.

(** X14.  A failed exchange leaves the session usable.  The provider may
    answer differently from one interaction to the next: when the call of one
    submission fails and the call of the next is answered, be it a new
    question or the same one sent again with the same settings, the
    transcript then ends with the first question, the second question and its
    answer, in that order, after the messages it held before. *)
Theorem failed_then_answered
    (first next : Request -> Outcome string)
    (i1 i2 : Inputs) (q1 q2 answer : string) (e : Exception) (st : Store) :
  page (init_session st) = "chat" ->
  submits i1 q1 -> submits i2 q2 ->
  let c1 := sidebar_settings i1 (settings (init_session st)) in
  first (request_for key c1 q1) = Raise e ->
  next (request_for key (sidebar_settings i2 c1) q2) = Return answer ->
  let st1 := store_after (interact secrets env first i1 st) in
  let st2 := store_after (interact secrets env next i2 st1) in
  messages (init_session st2) =
    (messages (init_session st) ++
     [ {| role := "user"; content := q1 |};
       {| role := "user"; content := q2 |};
       {| role := "assistant"; content := answer |} ])%list /\
  page (init_session st2) = "chat".
Proof.
  intros P S1 S2 c1 F A. cbv zeta. subst c1.
  rewrite (interact_submit secrets env first key key_found key_truthy
             i1 q1 st P S1).
  rewrite (chat_page_submit key first i1 q1) by assumption. cbv zeta.
  change (session (fresh (init_session st))) with (init_session st).
  rewrite F.
  cbn [result_of store_after fst snd session].
  match goal with
  | |- context [interact _ _ _ i2 (store_of ?s1)] =>
      assert (P1 : page (init_session (store_of s1)) = "chat")
        by (rewrite init_session_store_of; exact P);
      rewrite (interact_submit secrets env next key key_found key_truthy
                 i2 q2 (store_of s1) P1 S2)
  end.
  rewrite (chat_page_submit key next i2 q2) by assumption. cbv zeta.
  rewrite init_session_store_of.
  cbn [fresh session settings messages page].
  rewrite A.
  cbn [result_of store_after fst snd session].
  rewrite init_session_store_of. cbn [messages page].
  rewrite <- !app_assoc. split; [reflexivity | exact P].
Qed.

End Edits.

(** Widgets moved on the setup page, then Back: the defaults are still
    stored. *)
Lemma setup_edits_need_save_witness :
  settings
    (init_session
       (store_after
          (interact (SecretsFile (Some "gsk_test")) None (stub_answers "ok")
             (press Back (press_save 3 0.25 1024)) setup_store))) =
  default_settings.
Proof.
  exact (proj1
           (setup_edits_need_save (SecretsFile (Some "gsk_test")) None (stub_answers "ok")
              "gsk_test" eq_refl eq_refl
              (press Back (press_save 3 0.25 1024)) setup_store
              eq_refl eq_refl eq_refl)).
Defined.

(** The sidebar moved to the second model, 0.5 and 128 tokens. *)
Lemma sidebar_edits_apply_at_once_witness :
  settings
    (init_session
       (store_after
          (interact (SecretsFile (Some "gsk_test")) None (stub_answers "ok")
             (sidebar_edit 1 0.5 128) (chat_store [])))) =
  {| model := "llama-3.3-70b-versatile"; temperature := 0.5;
     max_tokens := 128 |}.
Proof.
  exact (sidebar_edits_apply_at_once (SecretsFile (Some "gsk_test")) None
           (stub_answers "ok") "gsk_test" eq_refl eq_refl
           (sidebar_edit 1 0.5 128) (chat_store []) eq_refl).
Defined.

(** Home, from the chat page of a session with the default settings. *)
Lemma navigation_keeps_settings_witness :
  settings
    (init_session
       (store_after
          (interact (SecretsFile (Some "gsk_test")) None (stub_answers "ok")
             (press Home no_inputs) (chat_store [])))) =
  default_settings.
Proof.
  exact (navigation_keeps_settings (SecretsFile (Some "gsk_test")) None (stub_answers "ok")
           "gsk_test" eq_refl eq_refl Home (chat_store [])
           (or_introl eq_refl)).
Defined.

(** The same question sent again with the sidebar untouched: the provider
    cannot be reached the first time and answers the second time. *)
Lemma failed_then_answered_witness :
  messages
    (init_session
       (store_after
          (interact (SecretsFile (Some "gsk_test")) None
             (stub_answers "hello") (submit "hi")
             (store_after
                (interact (SecretsFile (Some "gsk_test")) None
                   (stub_fails connection_error) (submit "hi")
                   (chat_store [])))))) =
  [ {| role := "user"; content := "hi" |};
    {| role := "user"; content := "hi" |};
    {| role := "assistant"; content := "hello" |} ].
Proof.
  exact (proj1
           (failed_then_answered (SecretsFile (Some "gsk_test")) None
              "gsk_test" eq_refl eq_refl
              (stub_fails connection_error) (stub_answers "hello")
              (submit "hi") (submit "hi") "hi" "hi" "hello"
              connection_error (chat_store []) eq_refl
              (submit_submits "hi" eq_refl)
              (submit_submits "hi" eq_refl) eq_refl eq_refl)).
Defined.

(** ** The model allow-list *)

Lemma retired_model_unlisted : ~ In "gemma2-9b-it" MODEL_OPTIONS.
Proof.
  intros H. simpl in H.
  repeat (destruct H as [H | H]; [discriminate H |]). exact H.
Qed.

(** C1 as the specification words it fails on a session state that holds
    an unlisted model: Get Started and then Back, with a key in place, leave
    [gemma2-9b-it] stored, although the selector of the setup page showed the
    first listed model meanwhile. *)
Lemma unlisted_model_survives_navigation :
  let st' :=
    run_session (SecretsFile (Some "gsk_test")) None (stub_answers "ok")
      [press GetStarted no_inputs; press Back no_inputs] retired_store in
  model (settings (init_session st')) = "gemma2-9b-it" /\
  ~ In (model (settings (init_session st'))) MODEL_OPTIONS /\
  selectbox MODEL_OPTIONS (model_index "gemma2-9b-it") None =
    "llama-3.1-8b-instant".
Proof.
  cbv zeta. split; [reflexivity |]. split; [| reflexivity].
  exact retired_model_unlisted.
Qed.

Section AllowList.

Variables (secrets : Secrets) (env : option string).
Variable invoke : Request -> Outcome string.
Variable key : string.
Hypothesis key_found : groq_api_key secrets env = Return (Some key).
Hypothesis key_truthy : truthy key = true.

(** Save Settings and Continue store what the selector of the setup page
    yields. *)
Lemma setup_stores_selected (i : Inputs) (st : Store) :
  page (init_session st) = "setup" ->
  btn_back i = false ->
  btn_save i = true \/ btn_continue i = true ->
  model
    (settings (init_session (store_after (interact secrets env invoke i st))))
  = selectbox MODEL_OPTIONS (model_index (model (settings (init_session st))))
      (sel_model i).
Proof.
  intros P Hb Hsc.
  rewrite (interact_session secrets env invoke key key_found key_truthy).
  cbv zeta. rewrite router_fresh, P. simpl String.eqb. cbv iota.
  rewrite setup_page_run. cbv zeta. rewrite Hb.
  change (session (fresh (init_session st))) with (init_session st).
  destruct (btn_continue i) eqn:Hc.
  - cbn [fst snd session].
    rewrite settled_settings_listed; [reflexivity |]. apply selectbox_in.
  - destruct Hsc as [Hs | Hs]; [| discriminate Hs]. rewrite Hs.
    reflexivity.
Qed.

(** The landing page, unless its click leads to the chat page, and the setup
    page, unless Save Settings or Continue is clicked, leave the stored
    settings as they are. *)
Lemma settings_left_alone (i : Inputs) (st : Store) :
  (page (init_session st) = "landing" /\
   (btn_get_started i = true \/ btn_landing_setup i = true \/
    btn_landing_chat i = false)) \/
  (page (init_session st) = "setup" /\
   btn_save i = false /\ btn_continue i = false) ->
  settings (init_session (store_after (interact secrets env invoke i st))) =
  settings (init_session st).
Proof.
  intros H.
  rewrite (interact_session secrets env invoke key key_found key_truthy).
  cbv zeta. rewrite router_fresh.
  destruct H as [(P & B) | (P & Hs & Hc)]; rewrite P; simpl String.eqb;
    cbv iota.
  - rewrite landing_page_run. cbv zeta.
    destruct (btn_get_started i), (btn_landing_setup i),
      (btn_landing_chat i);
      try (destruct B as [B | [B | B]]; discriminate B); reflexivity.
  - rewrite setup_page_run. cbv zeta. rewrite Hs, Hc.
    destruct (btn_back i); reflexivity.
Qed.

(** The chat page stores what its selector yields, on every interaction. *)
Lemma chat_stores_selected (i : Inputs) (st : Store) :
  on_chat (page (init_session st)) = true ->
  model
    (settings (init_session (store_after (interact secrets env invoke i st))))
  = selectbox MODEL_OPTIONS (model_index (model (settings (init_session st))))
      (sb_model i).
Proof.
  intros C.
  rewrite (interact_session secrets env invoke key key_found key_truthy).
  cbv zeta. rewrite router_fresh.
  destruct (on_chat_route _ C) as [EL ES]. rewrite EL, ES.
  pose proof (chat_page_settings key invoke i (fresh (init_session st))) as S.
  change (session (fresh (init_session st))) with (init_session st) in S.
  destruct (chat_page key invoke i (fresh (init_session st)))
    as [[u | [|]] w]; cbn [fst snd] in *; try (rewrite S; reflexivity).
  rewrite settled_settings_listed; [rewrite S; reflexivity |].
  rewrite S. apply selectbox_in.
Qed.

End AllowList.

(** C1, as the code has it.  In every session the script starts, the stored
    model is a member of [MODEL_OPTIONS] after every sequence of
    interactions.  A stored value outside the list is resolved where the code
    reads it for a selector: both selectors yield a listed model for every
    stored value and every pick, the first entry when the stored value is
    unlisted and nothing is picked, and they never raise.  The chat page
    stores what its selector yields on every interaction, the setup page on
    Save Settings and on Continue; every request that is sent names a listed
    model.  The landing page (unless its click opens the chat page) and the
    setup page without Save Settings or Continue write no settings, so there
    a stored value stays as it is. *)
Theorem model_always_in_allow_list :
  (forall secrets env invoke (l : list Inputs),
     In (model
           (settings
              (init_session (run_session secrets env invoke l empty_store))))
        MODEL_OPTIONS) /\
  (forall (m : string) (pick : option nat),
     In (selectbox MODEL_OPTIONS (model_index m) pick) MODEL_OPTIONS) /\
  (forall m : string,
     ~ In m MODEL_OPTIONS ->
     selectbox MODEL_OPTIONS (model_index m) None = "llama-3.1-8b-instant") /\
  (forall secrets env invoke (i : Inputs) (st : Store) (r : Request),
     In r (requests (interact secrets env invoke i st)) ->
     In (llm_model (req_llm r)) MODEL_OPTIONS) /\
  (forall secrets env invoke key (i : Inputs) (st : Store),
     groq_api_key secrets env = Return (Some key) -> truthy key = true ->
     page (init_session st) <> "landing" ->
     page (init_session st) <> "setup" ->
     In (model
           (settings
              (init_session (store_after (interact secrets env invoke i st)))))
        MODEL_OPTIONS) /\
  (forall secrets env invoke key (i : Inputs) (st : Store),
     groq_api_key secrets env = Return (Some key) -> truthy key = true ->
     on_chat (page (init_session st)) = true ->
     model
       (settings
          (init_session (store_after (interact secrets env invoke i st))))
     = selectbox MODEL_OPTIONS
         (model_index (model (settings (init_session st)))) (sb_model i)) /\
  (forall secrets env invoke key (i : Inputs) (st : Store),
     groq_api_key secrets env = Return (Some key) -> truthy key = true ->
     page (init_session st) = "setup" ->
     btn_back i = false ->
     btn_save i = true \/ btn_continue i = true ->
     model
       (settings
          (init_session (store_after (interact secrets env invoke i st))))
     = selectbox MODEL_OPTIONS
         (model_index (model (settings (init_session st)))) (sel_model i)) /\
  (forall secrets env invoke key (i : Inputs) (st : Store),
     groq_api_key secrets env = Return (Some key) -> truthy key = true ->
     (page (init_session st) = "landing" /\
      (btn_get_started i = true \/ btn_landing_setup i = true \/
       btn_landing_chat i = false)) \/
     (page (init_session st) = "setup" /\
      btn_save i = false /\ btn_continue i = false) ->
     settings (init_session (store_after (interact secrets env invoke i st)))
     = settings (init_session st)).
Proof.
  repeat apply conj.
  - intros secrets env invoke l. apply run_session_model. simpl. auto.
  - exact selectbox_in.
  - intros m N. unfold selectbox. rewrite (model_index_absent m N).
    reflexivity.
  - exact interact_sent.
  - exact chat_interact_model.
  - intros secrets env invoke key i st F K.
    exact (chat_stores_selected secrets env invoke key F K i st).
  - intros secrets env invoke key i st F K.
    exact (setup_stores_selected secrets env invoke key F K i st).
  - intros secrets env invoke key i st F K.
    exact (settings_left_alone secrets env invoke key F K i st).
Qed.

(** The retired [gemma2-9b-it], left in the session state: Save Settings on
    the setup page, with the selector untouched, stores the first listed
    model. *)
Lemma model_always_in_allow_list_witness :
  model
    (settings
       (init_session
          (store_after
             (interact (SecretsFile (Some "gsk_test")) None (stub_answers "ok")
                (press_save_only no_inputs)
                (store_after
                   (interact (SecretsFile (Some "gsk_test")) None
                      (stub_answers "ok") (press GetStarted no_inputs)
                      retired_store)))))) =
  "llama-3.1-8b-instant".
Proof.
  exact (proj1 (proj2 (proj2 (proj2 (proj2 (proj2 (proj2
           model_always_in_allow_list))))))
           (SecretsFile (Some "gsk_test")) None (stub_answers "ok") "gsk_test"
           (press_save_only no_inputs)
           (store_after
              (interact (SecretsFile (Some "gsk_test")) None
                 (stub_answers "ok") (press GetStarted no_inputs)
                 retired_store))
           eq_refl eq_refl eq_refl eq_refl (or_introl eq_refl)).
Defined.
